(** * Snap package provider: execution module and state module

    A shallow embedding of [salt/modules/snappkg.py] (inventory listing,
    version query, install, remove) and [salt/states/snappkg.py]
    (the declarative [installed] / [removed] states), followed by the
    properties of the reconciliation protocol.

    Python values are modelled as follows.
    - [str] is [string]; characters are bytes.
    - A package dictionary is a [gmap string VersionValue]: keys are unique
      and neither the module nor its helpers depend on the order of keys.
    - Dictionaries handed out by [list_pkgs] are objects: they live in a
      store and are passed around by reference, because [__context__] keeps
      one of them and the module sometimes returns that very object.
      Version lists inside a dictionary are held by value.
    - The module's effects (the [__context__] entry, the store, the commands
      given to [cmd.run] / [cmd.run_all], the log) are threaded through a
      state-and-exception monad [Py]. *)

From Stdlib Require Import String Ascii ZArith List Bool.
From stdpp Require Import base option gmap strings list sorting.

Open Scope string_scope.
Open Scope list_scope.

(** ** Values *)

(** A version is a string, or the list of the versions found for a name. *)
Inductive VersionValue : Type :=
| VStr (s : string)
| VList (l : list string).

#[global] Instance VersionValue_eq_dec : EqDecision VersionValue.
Proof. solve_decision. Defined.

Abbreviation Inventory := (gmap string VersionValue).

(** One entry of [salt.utils.data.compare_dicts]: [{'old': .., 'new': ..}]. *)
Record Diff : Type := mkDiff { old : VersionValue; new : VersionValue }.

#[global] Instance Diff_eq_dec : EqDecision Diff.
Proof. solve_decision. Defined.

Abbreviation ChangeSet := (gmap string Diff).

(** The [info] dictionary of a [CommandExecutionError]; a key that is not
    set is [None], so that [info.get('changes', {})] can be written out. *)
Record Info : Type := mkInfo {
  info_errors : option (list string);
  info_changes : option ChangeSet
}.

(** Truth value of the [info] dictionary: a dictionary is true when it has
    a key. *)
Definition info_true (i : Info) : bool :=
  match info_errors i, info_changes i with
  | None, None => false
  | _, _ => true
  end.

Inductive Exc : Type :=
| CommandExecutionError (message : string) (info : option Info)
| NameError (name : string).

Inductive Outcome (A : Type) : Type :=
| Return (a : A)
| Raise (e : Exc).
Arguments Return {A} a.
Arguments Raise {A} e.

(** The value of [ret['changes']] in a state report: either the diff taken
    from an error payload, or [{'installed': <diff>}]. *)
Inductive ChangesValue : Type :=
| CV_diff (d : Diff)
| CV_set (cs : ChangeSet).

Abbreviation StateChanges := (gmap string ChangesValue).

Record StateReport : Type := mkReport {
  name : string;
  result : bool;
  changes : StateChanges;
  comment : string
}.

(** What [version] returns: a single value, or a dictionary. *)
Inductive VersionResult : Type :=
| Single (v : VersionValue)
| Many (m : Inventory).

(** Keyword arguments that [list_pkgs] looks at. *)
Record Kwargs : Type := mkKwargs { removed_kw : bool; purge_desired_kw : bool }.

Definition no_kwargs : Kwargs := mkKwargs false false.

(** The dictionary returned by [cmd.run_all]. *)
Record RunAll : Type := mkRunAll { retcode : Z; stdout : string; stderr : string }.

(** A command given to the process executor. *)
Inductive Call : Type :=
| Run (argv : list string)
| RunFull (argv : list string).

(** ** Strings *)

(** A string of the program is a [string], one [ascii] for each character:
    the text it stands for has its characters below 256, which covers what
    [snap list --unicode=never] prints. *)

Module Str.

(** [s.startswith(p)] *)
Definition startswith (p s : string) : bool := String.prefix p s.

(** [c in s] for a one-character [c] *)
Fixpoint contains (c : ascii) (s : string) : bool :=
  match s with
  | EmptyString => false
  | String a s' => if Ascii.eqb a c then true else contains c s'
  end.

(** The class [\s] of a text pattern: the white space of Unicode.  Among
    the characters below 256 these are the tab, the line feed, the vertical
    tab, the form feed and the carriage return (9 to 13), the four
    information separators (28 to 31), the space (32), the next-line
    character (133) and the no-break space (160). *)
Definition is_space (a : ascii) : bool :=
  let n := nat_of_ascii a in
  Nat.eqb n 32 || (Nat.leb 9 n && Nat.leb n 13) || (Nat.leb 28 n && Nat.leb n 31)
  || Nat.eqb n 133 || Nat.eqb n 160.

(** [re.sub(r"\s+", " ", s)]: every maximal run of white space becomes one
    space.  [in_run] says that the previous character was white space. *)
Fixpoint sub_ws (in_run : bool) (s : string) : string :=
  match s with
  | EmptyString => EmptyString
  | String a s' =>
      if is_space a
      then (if in_run then sub_ws true s' else String " " (sub_ws true s'))
      else String a (sub_ws false s')
  end.

(** [s.split(sep)] for a one-character separator: empty fields are kept,
    and the result is never empty. *)
Fixpoint split (sep : ascii) (s : string) : list string :=
  match s with
  | EmptyString => [EmptyString]
  | String a s' =>
      if Ascii.eqb a sep then EmptyString :: split sep s'
      else match split sep s' with
           | [] => [String a EmptyString]
           | f :: fs => String a f :: fs
           end
  end.

(** [sep.join(l)] *)
Definition join (sep : string) (l : list string) : string := String.concat sep l.

(** The characters of a string, as Python iterates over it. *)
Fixpoint chars (s : string) : list string :=
  match s with
  | EmptyString => []
  | String a s' => String a EmptyString :: chars s'
  end.

End Str.

(** ** Helpers of the package-resource and data utilities *)

Module PkgResource.

(** Modelled from the spec: [pkg_resource.add_pkg] is called by the module
    but defined elsewhere.  It accumulates a pair into the inventory,
    appending to the versions of a name that recurs
    ([pkgs.setdefault(name, []).append(pkgver)]).  A value that is not a
    list is left alone. *)
Definition add_pkg (pkgs : Inventory) (name pkgver : string) : Inventory :=
  match pkgs !! name with
  | None => <[name := VList [pkgver]]> pkgs
  | Some (VList l) => <[name := VList (l ++ [pkgver])]> pkgs
  | Some (VStr _) => pkgs
  end.

(** Order used to sort versions: the order of strings, byte by byte. *)
Definition version_le (a b : string) : Prop := String.leb a b = true.

#[global] Instance version_le_dec a b : Decision (version_le a b).
Proof. unfold version_le. apply _. Defined.

(** [sorted(set(l))] *)
Definition sorted_set (l : list string) : list string :=
  merge_sort version_le (remove_dups l).

(** Modelled from the spec: [pkg_resource.sort_pkglist] is defined
    elsewhere.  It sorts every version list deterministically
    ([pkgs[key] = sorted(set(pkgs[key]))]). *)
Definition sort_pkglist (pkgs : Inventory) : Inventory :=
  (fun v => match v with
            | VList l => VList (sorted_set l)
            | VStr s => VList (sorted_set (Str.chars s))
            end) <$> pkgs.

(** [','.join(v)] *)
Definition join_value (v : VersionValue) : string :=
  match v with
  | VList l => Str.join "," l
  | VStr s => Str.join "," (Str.chars s)
  end.

(** Modelled from the spec: [pkg_resource.stringify] is defined elsewhere.
    It gives the string shape of an inventory
    ([pkgs[key] = ','.join(pkgs[key])]). *)
Definition stringify (pkgs : Inventory) : Inventory :=
  (fun v => VStr (join_value v)) <$> pkgs.

End PkgResource.

Module Data.

(** Modelled from the spec: [salt.utils.data.compare_dicts] is defined
    elsewhere.  The change set holds the keys whose value differs between
    the two snapshots; a key present in only one of them is compared with
    the empty string. *)
Definition compare_dicts (old_d new_d : Inventory) : ChangeSet :=
  merge (fun o n =>
           match o, n with
           | None, None => None
           | None, Some vn => Some (mkDiff (VStr "") vn)
           | Some vo, None => Some (mkDiff vo (VStr ""))
           | Some vo, Some vn =>
               if decide (vn = vo) then None else Some (mkDiff vo vn)
           end) old_d new_d.

End Data.

Module Itertools.

(** Modelled from the spec: [salt.utils.itertools.split] is defined
    elsewhere.  With the separator ["\n"] it yields the lines of the
    output, the header first.  The module reaches it as an attribute of the
    package [salt.utils], which it imports; a bare name that is never
    imported, such as [fnmatch] below, is another matter. *)
Definition split (orig : string) : list string :=
  Str.split "010"%char orig.

End Itertools.

(** ** The host: process executor and configuration *)

(** The external collaborators of the module, over a state [E] of the
    machine the commands act on. *)
Class Host (E : Type) : Type := {
  (** [__salt__['cmd.run'](argv)]: the standard output *)
  cmd_run : list string -> E -> string * E;
  (** [__salt__['cmd.run_all'](argv)] *)
  cmd_run_all : list string -> E -> RunAll * E;
  (** [salt.utils.systemd.has_scope(__context__)] *)
  has_scope : E -> bool;
  (** [__salt__['config.get']('systemd.scope', True)] *)
  config_systemd_scope : E -> bool;
  (** the text an exception shows for its message and its ['errors'] *)
  render_errors : string -> list string -> string
}.

(** ** Program state *)

Record World (E : Type) : Type := mkWorld {
  (** the entry ['snappkg.list_pkgs'] of [__context__]: a reference *)
  context : option nat;
  (** the dictionaries handed out by [list_pkgs], by reference *)
  store : list Inventory;
  (** the machine *)
  machine : E;
  (** the commands executed so far, oldest first *)
  trace : list Call;
  (** the messages given to [log.error], oldest first *)
  logged : list string
}.
Arguments mkWorld {E} _ _ _ _ _.
Arguments context {E} _.
Arguments store {E} _.
Arguments machine {E} _.
Arguments trace {E} _.
Arguments logged {E} _.

(** The dictionary a reference points to. *)
Definition obj {E} (w : World E) (r : nat) : Inventory := default ∅ (store w !! r).

(** The cached inventory, when there is one. *)
Definition cached {E} (w : World E) : option Inventory := obj w <$> context w.

(** Every reference held by [__context__] points into the store. *)
Definition wf {E} (w : World E) : Prop :=
  forall c, context w = Some c -> c < length (store w).

(** ** The monad of module code *)

Definition Py (E A : Type) : Type := World E -> Outcome A * World E.

#[global] Instance Py_ret {E} : MRet (Py E) :=
  fun A a w => (Return a, w).

#[global] Instance Py_bind {E} : MBind (Py E) :=
  fun A B f m w =>
    match m w with
    | (Return a, w') => f a w'
    | (Raise e, w') => (Raise e, w')
    end.

Definition raise {E A} (e : Exc) : Py E A := fun w => (Raise e, w).

(** [try: body except CommandExecutionError as exc: handler(exc)] *)
Definition try_except {E A} (body : Py E A)
    (handler : string -> option Info -> Py E A) : Py E A :=
  fun w =>
    match body w with
    | (Raise (CommandExecutionError msg info), w') => handler msg info w'
    | r => r
    end.

Section Primitives.
Context {E : Type} `{Host E}.

(** A new dictionary object. *)
Definition alloc (d : Inventory) : Py E nat :=
  fun w => (Return (length (store w)),
            mkWorld (context w) (store w ++ [d]) (machine w) (trace w) (logged w)).

Definition deref (r : nat) : Py E Inventory :=
  fun w => (Return (obj w r), w).

(** In-place update of the object behind a reference. *)
Definition update (r : nat) (f : Inventory -> Inventory) : Py E unit :=
  fun w => (Return tt,
            mkWorld (context w) (<[r := f (obj w r)]> (store w)) (machine w)
                    (trace w) (logged w)).

(** [copy.deepcopy(r)] *)
Definition deepcopy (r : nat) : Py E nat :=
  d ← deref r; alloc d.

Definition context_get : Py E (option nat) :=
  fun w => (Return (context w), w).

Definition context_set (c : option nat) : Py E unit :=
  fun w => (Return tt, mkWorld c (store w) (machine w) (trace w) (logged w)).

Definition run (argv : list string) : Py E string :=
  fun w => let '(out, e) := cmd_run argv (machine w) in
           (Return out,
            mkWorld (context w) (store w) e (trace w ++ [Run argv]) (logged w)).

Definition run_all (argv : list string) : Py E RunAll :=
  fun w => let '(out, e) := cmd_run_all argv (machine w) in
           (Return out,
            mkWorld (context w) (store w) e (trace w ++ [RunFull argv]) (logged w)).

Definition log_error (msg : string) : Py E unit :=
  fun w => (Return tt,
            mkWorld (context w) (store w) (machine w) (trace w) (logged w ++ [msg])).

(** The scoped-execution prefix of a mutating command. *)
Definition scope_prefix : Py E (list string) :=
  fun w => (Return (if has_scope (machine w) && config_systemd_scope (machine w)
                    then ["systemd-run"; "--scope"] else []), w).

End Primitives.

(** ** The execution module: [salt/modules/snappkg.py] *)

Section Snappkg.
Context {E : Type} `{Host E}.

(** The body of the loop over the lines of [snap list]: the header
    (index 0) and blank lines are skipped; a line whose first two fields
    cannot be unpacked raises [ValueError], which is caught and logged. *)
Definition list_pkgs_line (ret : nat) (i : nat) (line : string) : Py E unit :=
  if Nat.eqb i 0 || String.eqb line "" then mret tt
  else
    let line := Str.sub_ws false line in
    match take 2 (Str.split " "%char line) with
    | [name; version_num] =>
        update ret (fun d => PkgResource.add_pkg d name version_num)
    | _ =>
        log_error ("Problem parsing snap list: Unexpected formatting in line: '"
                     +:+ line +:+ "'")
    end.

(** [for i, line in enumerate(lines)], from index [i]. *)
Fixpoint list_pkgs_loop (ret : nat) (i : nat) (lines : list string) : Py E unit :=
  match lines with
  | [] => mret tt
  | line :: rest => list_pkgs_line ret i line;; list_pkgs_loop ret (S i) rest
  end.

Definition list_pkgs (versions_as_list : bool) (kwargs : Kwargs) : Py E nat :=
  if removed_kw kwargs || purge_desired_kw kwargs then alloc ∅
  else
    c ← context_get;
    match c with
    | Some in_context =>
        if versions_as_list then mret in_context
        else
          ret ← deepcopy in_context;
          update ret PkgResource.stringify;;
          mret ret
    | None =>
        let cmd := ["snap"; "list"; "--color=never"; "--unicode=never"] in
        ret ← alloc ∅;
        out ← run cmd;
        list_pkgs_loop ret 0 (Itertools.split out);;
        update ret PkgResource.sort_pkglist;;
        copy ← deepcopy ret;
        context_set (Some copy);;
        (if versions_as_list then mret tt else update ret PkgResource.stringify);;
        mret ret
    end.

(** [fnmatch.filter(pkgs, name)].  The module has no [import fnmatch], so
    evaluating the name [fnmatch] raises [NameError]. *)
Definition fnmatch_filter (pkgs : nat) (name : string) : Py E (list string) :=
  raise (NameError "fnmatch").

(** [for name in names] of [_resource_version]; the accumulator is
    [(ret, pkg_glob)]. *)
Fixpoint _resource_version_loop (pkgs : nat) (names : list string)
    (acc : Inventory * bool) : Py E (Inventory * bool) :=
  match names with
  | [] => mret acc
  | name :: rest =>
      d ← deref pkgs;
      acc' ← (if Str.contains "*"%char name
              then
                matches ← fnmatch_filter pkgs name;
                mret (foldl (fun r m => <[m := default (VList []) (d !! m)]> r)
                            (fst acc) matches, true)
              else
                mret (<[name := default (VList []) (d !! name)]> (fst acc), snd acc));
      _resource_version_loop pkgs rest acc'
  end.

Definition _resource_version (names : list string) (versions_as_list : bool)
    (kwargs : Kwargs) : Py E VersionResult :=
  acc ← match names with
        | [] => mret (∅, false)
        | _ => pkgs ← list_pkgs true kwargs;
               _resource_version_loop pkgs names (∅, false)
        end;
  let ret := if versions_as_list then fst acc else PkgResource.stringify (fst acc) in
  let pkg_glob := snd acc in
  if Nat.eqb (size ret) 1 && negb pkg_glob
  then match map_to_list ret with
       | (_, v) :: _ => mret (Single v)
       | [] => mret (Single (VStr ""))
       end
  else mret (Many ret).

Definition _clear_versions : Py E unit := context_set None.

Definition version (names : list string) (versions_as_list : bool)
    (kwargs : Kwargs) : Py E VersionResult :=
  _resource_version names versions_as_list kwargs.

(** [out['retcode'] != 0 and out['stderr']] *)
Definition command_failed (out : RunAll) : bool :=
  negb (Z.eqb (retcode out) 0) && negb (String.eqb (stderr out) "").

Definition install_cmd (pre : list string) (name confinement : string) : list string :=
  pre ++ ["snap"; "install"; "--color=never"; "--unicode=never";
          "--" +:+ confinement; name].

Definition install (name confinement : string) : Py E ChangeSet :=
  if Str.startswith "-" name
  then raise (CommandExecutionError "Invalid snap package name " None)
  else if negb (bool_decide (confinement ∈ ["jailmode"; "classic"; "devmode"]))
  then raise (CommandExecutionError
                "Invalid confinement mode. Options are jailmode, classic and devmode"
                None)
  else
    pre ← scope_prefix;
    let cmd := install_cmd pre name confinement in
    old_versions ← list_pkgs false no_kwargs;
    out ← run_all cmd;
    let errors := if command_failed out then [stderr out] else [] in
    _clear_versions;;
    new_versions ← list_pkgs false no_kwargs;
    old_d ← deref old_versions;
    new_d ← deref new_versions;
    let ret := Data.compare_dicts old_d new_d in
    match errors with
    | [] => mret ret
    | _ => raise (CommandExecutionError "Problem encountered installing package(s)"
                    (Some (mkInfo (Some errors) (Some ret))))
    end.

Definition remove_cmd (pre : list string) (name : string) : list string :=
  pre ++ ["snap"; "remove"; name].

(** [confinement] is a parameter of [remove], as in the source. *)
Definition remove (name confinement : string) : Py E ChangeSet :=
  if Str.startswith "-" name
  then raise (CommandExecutionError "Invalid snap package name " None)
  else
    pre ← scope_prefix;
    let cmd := remove_cmd pre name in
    old_versions ← list_pkgs false no_kwargs;
    out ← run_all cmd;
    let errors := if command_failed out then [stderr out] else [] in
    _clear_versions;;
    new_versions ← list_pkgs false no_kwargs;
    old_d ← deref old_versions;
    new_d ← deref new_versions;
    let ret := Data.compare_dicts old_d new_d in
    match errors with
    | [] => mret ret
    | _ => raise (CommandExecutionError "Problem encountered removing package(s)"
                    (Some (mkInfo (Some errors) (Some ret))))
    end.

End Snappkg.

(** ** The state module: [salt/states/snappkg.py] *)

Section States.
Context {E : Type} `{Host E}.

(** Truth value of what [version] returns. *)
Definition truthy (v : VersionResult) : bool :=
  match v with
  | Single (VStr s) => negb (String.eqb s "")
  | Single (VList l) => negb (Nat.eqb (length l) 0)
  | Many m => negb (Nat.eqb (size m) 0)
  end.

(** Modelled from the spec: the attribute [strerror_without_changes] is set
    by [salt.exceptions.CommandExecutionError], which is defined elsewhere.
    It is the human-readable comment of the error: its message, shown with
    its ['errors'] when the payload has some. *)
Definition strerror_without_changes (message : string) (i : Info) : string :=
  match info_errors i with
  | Some errs => render_errors message errs
  | None => message
  end.

(** Modelled from the spec: [str(exc)] of an error without payload, from
    [salt.exceptions], is its message. *)
Definition exc_str (message : string) : string := message.

(** The [except CommandExecutionError as exc] clause of both states;
    [what] is ["installing"] or ["removing"].  [exc.info] is true when it
    is a dictionary with a key. *)
Definition failed_report (what : string) (ret : StateReport)
    (message : string) (info : option Info) : StateReport :=
  match info with
  | Some i =>
      if info_true i
      then mkReport (name ret) false
                    (CV_diff <$> default ∅ (info_changes i))
                    (strerror_without_changes message i)
      else mkReport (name ret) false ∅
                    ("An error was encountered while " +:+ what +:+ " package(s): "
                       +:+ exc_str message)
  | None =>
      mkReport (name ret) false ∅
               ("An error was encountered while " +:+ what +:+ " package(s): "
                  +:+ exc_str message)
  end.

(** [ret['changes'].update(changes)] *)
Definition update_changes (ret : StateReport) (upd : StateChanges) : StateReport :=
  mkReport (name ret) (result ret) (upd ∪ changes ret) (comment ret).

Definition installed (name confinement : string) : Py E StateReport :=
  let ret := mkReport name true ∅ "" in
  v ← version [name] false no_kwargs;
  if truthy v then mret ret
  else
    try_except
      (cs ← install name confinement;
       mret (update_changes ret {["installed" := CV_set cs]}))
      (fun message info => mret (failed_report "installing" ret message info)).

Definition removed (name : string) : Py E StateReport :=
  let ret := mkReport name true ∅ "" in
  v ← version [name] false no_kwargs;
  if negb (truthy v) then mret ret
  else
    try_except
      (cs ← remove name "jailmode";
       mret (update_changes ret {["installed" := CV_set cs]}))
      (fun message info => mret (failed_report "removing" ret message info)).

End States.

(** ** A small machine to run the module on *)

Module Demo.

(** A snap in the store: its version, and whether its installation runs
    to the end without an error. *)
Record Snap : Type := mkSnap { snap_version : string; snap_ok : bool }.

Record Machine : Type := mkMachine {
  (** installed snaps, with their version *)
  snaps : list (string * string);
  (** what the store offers *)
  catalog : list (string * Snap)
}.

Definition lookup_assoc {A} (k : string) (l : list (string * A)) : option A :=
  snd <$> List.find (fun p => String.eqb (fst p) k) l.

Definition nl : string := String "010"%char EmptyString.

Definition listing (m : Machine) : string :=
  "Name  Version  Rev  Tracking  Publisher  Notes" +:+
  foldr (fun p acc => nl +:+ fst p +:+ "   " +:+ snd p +:+ "  1  stable  pub  -" +:+ acc) "" (snaps m).

Definition demo_run (argv : list string) (m : Machine) : string * Machine :=
  if bool_decide ("list" ∈ argv) then (listing m, m) else ("", m).

Definition demo_run_all (argv : list string) (m : Machine) : RunAll * Machine :=
  let target := List.last argv "" in
  if bool_decide ("install" ∈ argv) then
    match lookup_assoc target (catalog m) with
    | Some s =>
        let m' := mkMachine (snaps m ++ [(target, snap_version s)]) (catalog m) in
        if snap_ok s then (mkRunAll 0 (target +:+ " installed") "", m')
        else (mkRunAll 1 "" "error: hook failed", m')
    | None => (mkRunAll 1 "" "error: snap not found", m)
    end
  else if bool_decide ("remove" ∈ argv) then
    match lookup_assoc target (snaps m) with
    | Some _ =>
        (mkRunAll 0 (target +:+ " removed") "",
         mkMachine (List.filter (fun p => negb (String.eqb (fst p) target)) (snaps m))
                   (catalog m))
    | None => (mkRunAll 1 "" "error: snap is not installed", m)
    end
  else (mkRunAll 0 "" "", m).

#[global] Instance demo_host : Host Machine := {
  cmd_run := demo_run;
  cmd_run_all := demo_run_all;
  has_scope := fun _ => false;
  config_systemd_scope := fun _ => true;
  render_errors := fun msg errs => msg +:+ ": " +:+ Str.join "; " errs
}.

Definition shop : list (string * Snap) :=
  [("foo", mkSnap "1" true); ("foobar", mkSnap "2" true);
   ("baz", mkSnap "3" true); ("half", mkSnap "0.5" false)].

(** A world at start-up: nothing cached, nothing executed. *)
Definition boot (installed_snaps : list (string * string)) : World Machine :=
  mkWorld None [] (mkMachine installed_snaps shop) [] [].

(** A world whose cache was filled by an earlier read. *)
Definition warm (installed_snaps : list (string * string)) : World Machine :=
  snd (list_pkgs true no_kwargs (boot installed_snaps)).

(** The machine changes behind the module's back: the cache, the store, the
    trace and the log stay as they are. *)
Definition outside_change (m : Machine) (w : World Machine) : World Machine :=
  mkWorld (context w) (store w) m (trace w) (logged w).

(** After a read that saw only [foo], [baz] gets installed from outside. *)
Definition stale : World Machine :=
  outside_change (mkMachine [("foo", "1"); ("baz", "3")] shop) (warm [("foo", "1")]).

(** A machine that is nothing but the text its listing prints. *)
#[global] Instance text_host : Host string := {
  cmd_run := fun _ text => (text, text);
  cmd_run_all := fun _ text => (mkRunAll 0 "" "", text);
  has_scope := fun _ => false;
  config_systemd_scope := fun _ => true;
  render_errors := fun msg errs => msg +:+ ": " +:+ Str.join "; " errs
}.

(** A listing with a row that has a single field between two good rows. *)
Definition garbled : World string :=
  mkWorld None []
          ("Name  Version  Rev" +:+ nl +:+ "foo  1.0  7" +:+ nl +:+ "garbage"
             +:+ nl +:+ "bar 2.0 9")
          [] [].

(** A listing whose only row begins with a space. *)
Definition indented : World string :=
  mkWorld None [] ("Name  Version  Rev" +:+ nl +:+ " foo 1.0") [] [].

(** The cache lists [half], which was removed from outside after the last
    read. *)
Definition forgotten : World Machine :=
  outside_change (mkMachine [] shop) (warm [("half", "0.5")]).

(** A listing whose row is held apart by an information separator (31) and
    a no-break space (160). *)
Definition separated : World string :=
  mkWorld None []
          ("Name  Version  Rev" +:+ nl +:+
             "foo" +:+ String "031" ("1.0" +:+ String "160" "7"))
          [] [].

(** A listing with a row of one name followed by a space, before a good
    row. *)
Definition trailing : World string :=
  mkWorld None [] ("Name  Version  Rev" +:+ nl +:+ "garbage " +:+ nl +:+ "foo 1.0 7")
          [] [].

End Demo.

(** ** What a listing yields *)

(** The effect of one line of the listing on the inventory being built. *)
Definition read_line (i : nat) (line : string) (d : Inventory) : Inventory :=
  if Nat.eqb i 0 || String.eqb line "" then d
  else match take 2 (Str.split " "%char (Str.sub_ws false line)) with
       | [name; version_num] => PkgResource.add_pkg d name version_num
       | _ => d
       end.

(** What one line of the listing adds to the log. *)
Definition line_log (i : nat) (line : string) : list string :=
  if Nat.eqb i 0 || String.eqb line "" then []
  else let line := Str.sub_ws false line in
       match take 2 (Str.split " "%char line) with
       | [_; _] => []
       | _ => ["Problem parsing snap list: Unexpected formatting in line: '"
                 +:+ line +:+ "'"]
       end.

Fixpoint read_lines (i : nat) (lines : list string) (d : Inventory) : Inventory :=
  match lines with
  | [] => d
  | line :: rest => read_lines (S i) rest (read_line i line d)
  end.

Fixpoint lines_log (i : nat) (lines : list string) : list string :=
  match lines with
  | [] => []
  | line :: rest => line_log i line ++ lines_log (S i) rest
  end.

(** The first two fields of a line of the listing, white space compressed. *)
Definition fields (line : string) : list string :=
  take 2 (Str.split " "%char (Str.sub_ws false line)).

(** The message logged for a line that cannot be unpacked. *)
Definition parse_problem (line : string) : string :=
  "Problem parsing snap list: Unexpected formatting in line: '"
    +:+ Str.sub_ws false line +:+ "'".

(** A line after the header, not blank. *)
Definition is_row (i : nat) (line : string) : Prop := i <> 0 /\ line <> "".

(** Every value of the inventory is a list of versions. *)
Definition all_lists (d : Inventory) : Prop :=
  forall k v, d !! k = Some v -> exists l, v = VList l.

(** The inventory lists version [v] for name [n]. *)
Definition lists_version (d : Inventory) (n v : string) : Prop :=
  exists vs, d !! n = Some (VList vs) /\ v ∈ vs.

(** The inventory, in list shape, that a listing output stands for. *)
Definition parse_listing (out : string) : Inventory :=
  PkgResource.sort_pkglist (read_lines 0 (Itertools.split out) ∅).

(** The shape asked for with [versions_as_list]. *)
Definition shaped (versions_as_list : bool) (d : Inventory) : Inventory :=
  if versions_as_list then d else PkgResource.stringify d.

Definition list_cmd : list string :=
  ["snap"; "list"; "--color=never"; "--unicode=never"].

(** The inventory, in list shape, that [list_pkgs] works from in a world:
    the cached one when there is one, else what a listing run now yields. *)
Definition seen {E} `{Host E} (w : World E) : Inventory :=
  match cached w with
  | Some d => d
  | None => parse_listing (fst (cmd_run list_cmd (machine w)))
  end.

(** The machine after a [list_pkgs] call. *)
Definition machine_read {E} `{Host E} (w : World E) : E :=
  match context w with
  | Some _ => machine w
  | None => snd (cmd_run list_cmd (machine w))
  end.

(** The commands a [list_pkgs] call executes. *)
Definition trace_read {E} (w : World E) : list Call :=
  match context w with
  | Some _ => []
  | None => [Run list_cmd]
  end.

(** What a [list_pkgs] call logs. *)
Definition log_read {E} `{Host E} (w : World E) : list string :=
  match context w with
  | Some _ => []
  | None => lines_log 0 (Itertools.split (fst (cmd_run list_cmd (machine w))))
  end.

(** The shape of one value, as [stringify] gives it when lists are not
    asked for. *)
Definition shaped_value (val : bool) (v : VersionValue) : VersionValue :=
  if val then v else VStr (PkgResource.join_value v).

(** The reference returned by [list_pkgs(versions_as_list)] without
    keyword arguments. *)
Definition ref_list_pkgs {E} (val : bool) (w : World E) : nat :=
  match context w with
  | Some c => if val then c else length (store w)
  | None => length (store w)
  end.

(** The world that [list_pkgs(versions_as_list)] leaves. *)
Definition after_list_pkgs {E} `{Host E} (val : bool) (w : World E) : World E :=
  match context w with
  | Some c =>
      if val then w
      else mkWorld (Some c) (store w ++ [PkgResource.stringify (obj w c)]) (machine w)
                   (trace w) (logged w)
  | None =>
      mkWorld (Some (S (length (store w))))
              (store w ++ [shaped val (seen w); seen w])
              (machine_read w) (trace w ++ trace_read w) (logged w ++ log_read w)
  end.

(** The world after a mutating command [cmd] and [_clear_versions()]. *)
Definition after_command {E} `{Host E} (cmd : list string) (w : World E) : World E :=
  mkWorld None (store w) (snd (cmd_run_all cmd (machine w)))
          (trace w ++ [RunFull cmd]) (logged w).

(** The scoped-execution prefix in a world. *)
Definition prefix_in {E} `{Host E} (w : World E) : list string :=
  if has_scope (machine w) && config_systemd_scope (machine w)
  then ["systemd-run"; "--scope"] else [].

(** The closed set of confinement modes. *)
Definition confinements : list string := ["jailmode"; "classic"; "devmode"].

(** The two desired states, and the state function of each. *)
Inductive Desired : Type := Present | Absent.

Definition ensure {E} `{Host E} (d : Desired) (name confinement : string)
    : Py E StateReport :=
  match d with
  | Present => installed name confinement
  | Absent => removed name
  end.

(** The operation a state function issues to converge. *)
Definition operate {E} `{Host E} (d : Desired) (name confinement : string)
    : Py E ChangeSet :=
  match d with
  | Present => install name confinement
  | Absent => remove name confinement
  end.

(** The mutating command of an operation, after the scope prefix [pre]. *)
Definition operate_cmd (d : Desired) (pre : list string) (name confinement : string)
    : list string :=
  match d with
  | Present => install_cmd pre name confinement
  | Absent => remove_cmd pre name
  end.

(** The arguments pass the checks made before anything is executed. *)
Definition accepted (d : Desired) (name confinement : string) : Prop :=
  Str.startswith "-" name = false /\
  match d with
  | Present => confinement ∈ confinements
  | Absent => True
  end.

(** The change set an operation hands to its caller: its result, or the
    ['changes'] of the error it raises. *)
Definition changeset_of (o : Outcome ChangeSet) : option ChangeSet :=
  match o with
  | Return cs => Some cs
  | Raise (CommandExecutionError _ (Some i)) => info_changes i
  | Raise _ => None
  end.

Definition operation_name (d : Desired) : string :=
  match d with
  | Present => "installing"
  | Absent => "removing"
  end.

Definition problem (d : Desired) : string :=
  "Problem encountered " +:+ operation_name d +:+ " package(s)".

(** The version string the cached inventory gives for a name; empty when
    the name is not listed or nothing is cached. *)
Definition version_in_cache {E} (name : string) (w : World E) : string :=
  match cached w with
  | Some d => PkgResource.join_value (default (VList []) (d !! name))
  | None => ""
  end.

(** The desired state holds according to the cached inventory. *)
Definition settled {E} (d : Desired) (name : string) (w : World E) : Prop :=
  match d with
  | Present => version_in_cache name w <> ""
  | Absent => version_in_cache name w = ""
  end.

(** The report of a state that has nothing to do. *)
Definition satisfied (name : string) : StateReport := mkReport name true ∅ "".

(** A series of reads, one [list_pkgs(versions_as_list)] call per flag. *)
Fixpoint reads {E} `{Host E} (flags : list bool) : Py E unit :=
  match flags with
  | [] => mret tt
  | val :: rest => list_pkgs val no_kwargs;; reads rest
  end.

(** No character of the string is white space. *)
Fixpoint no_space (s : string) : bool :=
  match s with
  | EmptyString => true
  | String a s' => negb (Str.is_space a) && no_space s'
  end.

(** Every character of the string passes the test. *)
Fixpoint all_chars (p : ascii -> bool) (s : string) : bool :=
  match s with
  | EmptyString => true
  | String a s' => p a && all_chars p s'
  end.

(** The line begins with a white-space character. *)
Definition starts_with_space (s : string) : bool :=
  match s with
  | EmptyString => false
  | String a _ => Str.is_space a
  end.

(** The white-space-delimited fields of a line: its maximal runs of
    characters that are not white space. *)
Fixpoint whitespace_fields (s : string) : list string :=
  match s with
  | EmptyString => []
  | String a s' =>
      if Str.is_space a then whitespace_fields s'
      else match starts_with_space s', whitespace_fields s' with
           | false, t :: ts => String a t :: ts
           | _, ts => String a EmptyString :: ts
           end
  end.

(** The line is empty or ends with a white-space character. *)
Fixpoint ends_with_space (s : string) : bool :=
  match s with
  | EmptyString => true
  | String a s' =>
      match s' with
      | EmptyString => Str.is_space a
      | _ => ends_with_space s'
      end
  end.

(** The fields of a line between its runs of white space: its
    white-space-delimited fields, with an empty field in front when the line
    begins with white space and an empty field behind when it ends with
    white space. *)
Definition spaced_fields (s : string) : list string :=
  (if starts_with_space s then [""] else [])
    ++ whitespace_fields s ++ (if ends_with_space s then [""] else []).

(** The rows that hold no white space, from index [i] on. *)
Fixpoint unreadable_rows (i : nat) (lines : list string) : list string :=
  match lines with
  | [] => []
  | line :: rest =>
      (if negb (Nat.eqb i 0) && negb (String.eqb line "") && no_space line
       then [line] else [])
      ++ unreadable_rows (S i) rest
  end.

(** ** Facts about the primitives and [list_pkgs] *)

Ltac py_unfold :=
  unfold mbind, mret, Py_bind, Py_ret, raise, try_except, alloc, deref, update,
    deepcopy, context_get, context_set, run, run_all, log_error, scope_prefix,
    _clear_versions in *.

Section ListFacts.
Context {E : Type} `{Host E}.

Lemma world_eta (w : World E) :
  mkWorld (context w) (store w) (machine w) (trace w) (logged w) = w.
Proof. by destruct w. Qed.

Lemma insert_last_app {A} (l : list A) (x y : A) :
  <[length l := y]> (l ++ [x]) = l ++ [y].
Proof.
  induction l as [|a l IH]; simpl; [done|]. by rewrite IH.
Qed.

Lemma obj_alloc (s : list Inventory) c (e : E) t lg d :
  obj (mkWorld c (s ++ [d]) e t lg) (length s) = d.
Proof.
  unfold obj; simpl. by rewrite lookup_app_r, Nat.sub_diag.
Qed.

Lemma obj_insert (s : list Inventory) c (e : E) t lg r d :
  r < length s -> obj (mkWorld c (<[r := d]> s) e t lg) r = d.
Proof.
  intros Hr. unfold obj; simpl. by rewrite list_lookup_insert_eq.
Qed.

Lemma list_pkgs_line_eq (r i : nat) (line : string) (w : World E) :
  r < length (store w) ->
  list_pkgs_line r i line w =
  (Return tt,
   mkWorld (context w) (<[r := read_line i line (obj w r)]> (store w)) (machine w)
           (trace w) (logged w ++ line_log i line)).
Proof.
  intros Hr. unfold list_pkgs_line, read_line, line_log.
  assert (Hid : <[r := obj w r]> (store w) = store w).
  { apply list_insert_id. unfold obj.
    destruct (lookup_lt_is_Some_2 (store w) r Hr) as [d Hd]. by rewrite Hd. }
  destruct (Nat.eqb i 0 || String.eqb line "").
  { py_unfold. by rewrite Hid, app_nil_r, world_eta. }
  destruct (take 2 (Str.split " " (Str.sub_ws false line))) as [|a [|b [|c l]]];
    py_unfold; rewrite ?Hid, ?app_nil_r; done.
Qed.

Lemma list_pkgs_loop_eq (r : nat) (lines : list string) :
  forall (i : nat) (w : World E),
  r < length (store w) ->
  list_pkgs_loop r i lines w =
  (Return tt,
   mkWorld (context w) (<[r := read_lines i lines (obj w r)]> (store w)) (machine w)
           (trace w) (logged w ++ lines_log i lines)).
Proof.
  induction lines as [|line rest IH]; intros i w Hr; simpl.
  - py_unfold. rewrite app_nil_r, list_insert_id, world_eta; [done|].
    unfold obj. destruct (lookup_lt_is_Some_2 (store w) r Hr) as [d Hd]. by rewrite Hd.
  - unfold mbind, Py_bind at 1. rewrite list_pkgs_line_eq by done.
    rewrite IH by (simpl; by rewrite length_insert). simpl.
    rewrite obj_insert by done. rewrite list_insert_insert_eq.
    by rewrite <- app_assoc.
Qed.

End ListFacts.

Section ListPkgs.
Context {E : Type} `{Host E}.

(** A call that finds a cached inventory. *)
Lemma list_pkgs_hit (w : World E) (c : nat) (val : bool) :
  context w = Some c ->
  list_pkgs val no_kwargs w =
  if val then (Return c, w)
  else (Return (length (store w)),
        mkWorld (Some c) (store w ++ [PkgResource.stringify (obj w c)]) (machine w)
                (trace w) (logged w)).
Proof.
  intros Hc. unfold list_pkgs; simpl. py_unfold. rewrite Hc.
  destruct val; [done|]. simpl.
  rewrite obj_alloc, insert_last_app. by rewrite Hc.
Qed.

(** A call that finds no cached inventory. *)
Lemma list_pkgs_miss (w : World E) (val : bool) :
  context w = None ->
  list_pkgs val no_kwargs w =
  (Return (length (store w)),
   mkWorld (Some (S (length (store w))))
           (store w ++ [shaped val (seen w); seen w])
           (machine_read w) (trace w ++ trace_read w) (logged w ++ log_read w)).
Proof.
  intros Hc. unfold list_pkgs, seen, cached, machine_read, trace_read, log_read; simpl.
  rewrite Hc; simpl. unfold mbind, Py_bind at 1. unfold context_get. rewrite Hc.
  unfold mbind, Py_bind at 1. unfold alloc at 1.
  unfold mbind, Py_bind at 1. unfold run. simpl.
  fold list_cmd.
  destruct (cmd_run list_cmd (machine w)) as [out e] eqn:Hrun. simpl.
  unfold mbind, Py_bind at 1.
  rewrite list_pkgs_loop_eq by (simpl; rewrite length_app; simpl; lia).
  simpl. rewrite obj_alloc. rewrite insert_last_app.
  py_unfold. simpl. rewrite !obj_alloc. rewrite !insert_last_app. simpl.
  rewrite !length_app. simpl. rewrite Nat.add_1_r.
  unfold parse_listing, shaped.
  destruct val; simpl; rewrite obj_alloc, <- app_assoc; simpl; [done|].
  rewrite (insert_app_r_alt (store w)) by lia.
  rewrite Nat.sub_diag. simpl.
  unfold obj at 1. simpl. by rewrite lookup_app_r, Nat.sub_diag.
Qed.

End ListPkgs.

Section Protocol.
Context {E : Type} `{Host E}.

Lemma list_pkgs_eq (w : World E) (val : bool) :
  list_pkgs val no_kwargs w = (Return (ref_list_pkgs val w), after_list_pkgs val w).
Proof.
  unfold ref_list_pkgs, after_list_pkgs.
  destruct (context w) as [c|] eqn:Hc.
  - rewrite (list_pkgs_hit w c val Hc). by destruct val.
  - by rewrite (list_pkgs_miss w val Hc).
Qed.

(** The object that [list_pkgs] returns holds the inventory seen, in the
    shape asked for. *)
Lemma obj_after_list_pkgs (w : World E) (val : bool) :
  obj (after_list_pkgs val w) (ref_list_pkgs val w) = shaped val (seen w).
Proof.
  unfold after_list_pkgs, ref_list_pkgs, seen, cached.
  destruct (context w) as [c|] eqn:Hc; simpl.
  - destruct val; simpl; [done|]. by rewrite obj_alloc.
  - unfold obj; simpl. by rewrite lookup_app_r, Nat.sub_diag.
Qed.

Lemma context_after_list_pkgs (w : World E) (val : bool) :
  is_Some (context (after_list_pkgs val w)).
Proof.
  unfold after_list_pkgs. destruct (context w) as [c|] eqn:Hc; [|by eexists].
  destruct val; simpl; [by rewrite Hc|]; by eexists.
Qed.

Lemma trace_after_list_pkgs (w : World E) (val : bool) :
  trace (after_list_pkgs val w) = trace w ++ trace_read w.
Proof.
  unfold after_list_pkgs, trace_read. destruct (context w); [|done].
  destruct val; simpl; by rewrite app_nil_r.
Qed.

Lemma machine_after_list_pkgs (w : World E) (val : bool) :
  machine (after_list_pkgs val w) = machine_read w.
Proof.
  unfold after_list_pkgs, machine_read. destruct (context w); [|done]. by destruct val.
Qed.

(** Objects already in the store are left as they are. *)
Lemma store_after_list_pkgs (w : World E) (val : bool) :
  exists more, store (after_list_pkgs val w) = store w ++ more.
Proof.
  unfold after_list_pkgs. destruct (context w); [destruct val|]; simpl.
  - exists []. by rewrite app_nil_r.
  - by eexists.
  - by eexists.
Qed.

Lemma cached_after_list_pkgs (w : World E) (val : bool) :
  wf w -> cached (after_list_pkgs val w) = Some (seen w).
Proof.
  intros Hwf. unfold after_list_pkgs, seen, cached.
  destruct (context w) as [c|] eqn:Hc; simpl.
  - destruct val; simpl; [by rewrite Hc|].
    unfold obj; simpl. by rewrite lookup_app_l by (by apply Hwf).
  - unfold obj; simpl. rewrite lookup_app_r by lia.
    by replace (S (length (store w)) - length (store w)) with 1 by lia.
Qed.

Lemma wf_after_list_pkgs (w : World E) (val : bool) :
  wf w -> wf (after_list_pkgs val w).
Proof.
  intros Hwf c. unfold after_list_pkgs.
  destruct (context w) as [c'|] eqn:Hc; [destruct val|]; simpl.
  - apply Hwf.
  - intros [= <-]. rewrite length_app. specialize (Hwf c' Hc). lia.
  - intros [= <-]. rewrite length_app. simpl. lia.
Qed.

End Protocol.

Section Operations.
Context {E : Type} `{Host E}.

Lemma _resource_version_loop_glob (pkgs : nat) (names : list string) :
  forall (acc : Inventory * bool) (w : World E),
  Exists (fun n => Str.contains "*" n = true) names ->
  _resource_version_loop pkgs names acc w = (Raise (NameError "fnmatch"), w).
Proof.
  induction names as [|n rest IH]; intros acc w Hex; [by inversion Hex|].
  simpl. py_unfold. unfold fnmatch_filter, raise.
  destruct (Str.contains "*" n) eqn:Hn; [done|].
  apply IH. inversion Hex; subst; [congruence|done].
Qed.

(** A name with a wildcard makes [version] raise [NameError]. *)
Lemma version_glob (w : World E) (names : list string) (val : bool) :
  Exists (fun n => Str.contains "*" n = true) names ->
  version names val no_kwargs w = (Raise (NameError "fnmatch"), after_list_pkgs true w).
Proof.
  intros Hex. unfold version, _resource_version.
  destruct names as [|n rest]; [by inversion Hex|].
  unfold mbind, Py_bind at 1. unfold mbind, Py_bind at 1.
  rewrite list_pkgs_eq. by rewrite _resource_version_loop_glob.
Qed.

(** One name without a wildcard: [version] returns a single value. *)
Lemma version_single (w : World E) (name : string) (val : bool) :
  Str.contains "*" name = false ->
  version [name] val no_kwargs w =
  (Return (Single (shaped_value val (default (VList []) (seen w !! name)))),
   after_list_pkgs true w).
Proof.
  intros Hn. unfold version, _resource_version.
  unfold mbind, Py_bind at 1. unfold mbind, Py_bind at 1.
  rewrite list_pkgs_eq. simpl. rewrite Hn. py_unfold. simpl.
  rewrite obj_after_list_pkgs. simpl.
  set (v := default (VList []) (seen w !! name)).
  destruct val; simpl.
  - rewrite insert_empty, map_size_singleton, map_to_list_singleton. done.
  - unfold PkgResource.stringify.
    rewrite insert_empty, map_fmap_singleton, map_size_singleton,
      map_to_list_singleton. done.
Qed.

End Operations.

Section Mutations.
Context {E : Type} `{Host E}.

(** The snapshot taken before the command is still what its reference
    points to after the command, [_clear_versions()] and the second read. *)
Lemma obj_before_kept (w : World E) (cmd : list string) :
  obj (after_list_pkgs false (after_command cmd (after_list_pkgs false w)))
      (ref_list_pkgs false w)
  = PkgResource.stringify (seen w).
Proof.
  rewrite <- (obj_after_list_pkgs w false).
  unfold after_command, after_list_pkgs at 1; simpl.
  unfold obj; simpl.
  rewrite lookup_app_l; [done|].
  unfold ref_list_pkgs, after_list_pkgs.
  destruct (context w); simpl; rewrite length_app; simpl; lia.
Qed.

Lemma obj_after_kept (w : World E) (cmd : list string) :
  obj (after_list_pkgs false (after_command cmd (after_list_pkgs false w)))
      (ref_list_pkgs false (after_command cmd (after_list_pkgs false w)))
  = PkgResource.stringify (seen (after_command cmd (after_list_pkgs false w))).
Proof. by rewrite obj_after_list_pkgs. Qed.

(** The protocol shared by [install] and [remove], once the arguments are
    accepted: read, run the command, invalidate, read again, compare. *)
Lemma mutation_eq (w : World E) (cmd : list string) (problem : string) :
  (old_versions ← list_pkgs false no_kwargs;
   out ← run_all cmd;
   let errors := if command_failed out then [stderr out] else [] in
   _clear_versions;;
   new_versions ← list_pkgs false no_kwargs;
   old_d ← deref old_versions;
   new_d ← deref new_versions;
   let ret := Data.compare_dicts old_d new_d in
   match errors with
   | [] => mret ret
   | _ => raise (CommandExecutionError problem
                   (Some (mkInfo (Some errors) (Some ret))))
   end) w
  =
  let w1 := after_list_pkgs false w in
  let out := fst (cmd_run_all cmd (machine w1)) in
  let w2 := after_command cmd w1 in
  let cs := Data.compare_dicts (PkgResource.stringify (seen w))
                               (PkgResource.stringify (seen w2)) in
  (if command_failed out
   then Raise (CommandExecutionError problem
                 (Some (mkInfo (Some [stderr out]) (Some cs))))
   else Return cs,
   after_list_pkgs false w2).
Proof.
  unfold mbind, Py_bind at 1. rewrite list_pkgs_eq.
  unfold mbind, Py_bind at 1. unfold run_all at 1.
  destruct (cmd_run_all cmd (machine (after_list_pkgs false w))) as [out e] eqn:Hrun.
  unfold mbind, Py_bind at 1. unfold _clear_versions, context_set at 1. simpl.
  unfold mbind, Py_bind at 1.
  assert (Hw2 : mkWorld None (store (after_list_pkgs false w)) e
                  (trace (after_list_pkgs false w) ++ [RunFull cmd])
                  (logged (after_list_pkgs false w))
                = after_command cmd (after_list_pkgs false w)).
  { unfold after_command. by rewrite Hrun. }
  rewrite Hw2, list_pkgs_eq.
  unfold mbind, Py_bind, deref. rewrite obj_before_kept, obj_after_kept.
  destruct (command_failed out); done.
Qed.

Lemma install_eq (w : World E) (name confinement : string) :
  Str.startswith "-" name = false ->
  confinement ∈ confinements ->
  install name confinement w =
  let cmd := install_cmd (prefix_in w) name confinement in
  let w1 := after_list_pkgs false w in
  let out := fst (cmd_run_all cmd (machine w1)) in
  let w2 := after_command cmd w1 in
  let cs := Data.compare_dicts (PkgResource.stringify (seen w))
                               (PkgResource.stringify (seen w2)) in
  (if command_failed out
   then Raise (CommandExecutionError "Problem encountered installing package(s)"
                 (Some (mkInfo (Some [stderr out]) (Some cs))))
   else Return cs,
   after_list_pkgs false w2).
Proof.
  intros Hname Hconf. unfold install. rewrite Hname.
  rewrite bool_decide_eq_true_2 by done. simpl.
  unfold mbind, Py_bind at 1. unfold scope_prefix at 1. fold (prefix_in w).
  apply mutation_eq.
Qed.

Lemma remove_eq (w : World E) (name confinement : string) :
  Str.startswith "-" name = false ->
  remove name confinement w =
  let cmd := remove_cmd (prefix_in w) name in
  let w1 := after_list_pkgs false w in
  let out := fst (cmd_run_all cmd (machine w1)) in
  let w2 := after_command cmd w1 in
  let cs := Data.compare_dicts (PkgResource.stringify (seen w))
                               (PkgResource.stringify (seen w2)) in
  (if command_failed out
   then Raise (CommandExecutionError "Problem encountered removing package(s)"
                 (Some (mkInfo (Some [stderr out]) (Some cs))))
   else Return cs,
   after_list_pkgs false w2).
Proof.
  intros Hname. unfold remove. rewrite Hname.
  unfold mbind, Py_bind at 1. unfold scope_prefix at 1. fold (prefix_in w).
  apply mutation_eq.
Qed.

End Mutations.

(** ** The change set *)

Lemma compare_dicts_lookup (o n : Inventory) (k : string) :
  Data.compare_dicts o n !! k =
  match o !! k, n !! k with
  | None, None => None
  | None, Some vn => Some (mkDiff (VStr "") vn)
  | Some vo, None => Some (mkDiff vo (VStr ""))
  | Some vo, Some vn => if decide (vn = vo) then None else Some (mkDiff vo vn)
  end.
Proof.
  unfold Data.compare_dicts. rewrite lookup_merge.
  by destruct (o !! k), (n !! k).
Qed.

(** The change set is empty exactly when the two snapshots agree. *)
Lemma compare_dicts_empty (o n : Inventory) :
  Data.compare_dicts o n = ∅ <-> o = n.
Proof.
  split.
  - intros Hcs. apply map_eq. intros k.
    assert (Hk : Data.compare_dicts o n !! k = None) by (by rewrite Hcs).
    rewrite compare_dicts_lookup in Hk.
    destruct (o !! k) as [vo|], (n !! k) as [vn|]; try done.
    destruct (decide (vn = vo)); [by subst|done].
  - intros ->. apply map_eq. intros k.
    rewrite compare_dicts_lookup, lookup_empty.
    destruct (n !! k); [|done]. by rewrite decide_True.
Qed.

Section OperateFacts.
Context {E : Type} `{Host E}.

(** After the command and the invalidation, what is seen is a new listing. *)
Lemma seen_after_command (w : World E) (cmd : list string) :
  seen (after_command cmd w) =
  parse_listing (fst (cmd_run list_cmd (snd (cmd_run_all cmd (machine w))))).
Proof. done. Qed.

Lemma operate_eq (d : Desired) (w : World E) (name confinement : string) :
  accepted d name confinement ->
  operate d name confinement w =
  let cmd := operate_cmd d (prefix_in w) name confinement in
  let w1 := after_list_pkgs false w in
  let out := fst (cmd_run_all cmd (machine w1)) in
  let w2 := after_command cmd w1 in
  let cs := Data.compare_dicts (PkgResource.stringify (seen w))
                               (PkgResource.stringify (seen w2)) in
  (if command_failed out
   then Raise (CommandExecutionError (problem d)
                 (Some (mkInfo (Some [stderr out]) (Some cs))))
   else Return cs,
   after_list_pkgs false w2).
Proof.
  intros [Hname Hconf]. destruct d; simpl.
  - by apply install_eq.
  - by apply remove_eq.
Qed.

End OperateFacts.

(** ** Properties of the execution module *)

Section ModuleProperties.
Context {E : Type} `{Host E}.

Lemma command_failed_true (out : RunAll) :
  retcode out <> 0%Z -> stderr out <> "" -> command_failed out = true.
Proof.
  intros Hr He. unfold command_failed.
  apply Z.eqb_neq in Hr. apply String.eqb_neq in He. by rewrite Hr, He.
Qed.

Lemma command_failed_false (out : RunAll) :
  retcode out = 0%Z \/ stderr out = "" -> command_failed out = false.
Proof.
  unfold command_failed. intros [->| ->]; [done|].
  by rewrite String.eqb_refl, andb_false_r.
Qed.

Lemma problem_eq (d : Desired) :
  problem d = match d with
              | Present => "Problem encountered installing package(s)"
              | Absent => "Problem encountered removing package(s)"
              end.
Proof. by destruct d. Qed.

(** C2, as the module has it.  For a call of [install] or [remove] whose
    arguments are accepted, the change set between the inventory read before
    the command and the inventory listed after it is computed whether or not
    the command succeeded.  When the command exits with a code other than 0
    and a non-empty error stream, the call raises [CommandExecutionError]
    whose payload holds the error stream and that change set; otherwise the
    change set is the result.  The change set is empty exactly when the two
    snapshots are equal.  The snapshot before the command is the cached
    inventory when there is one, and the listing of the machine only when
    nothing is cached. *)
Theorem diff_computed_unconditionally (d : Desired) (w : World E)
    (pkg confinement : string) :
  accepted d pkg confinement ->
  let cmd := operate_cmd d (prefix_in w) pkg confinement in
  let before :=
    PkgResource.stringify
      match cached w with
      | Some inv => inv
      | None => parse_listing (fst (cmd_run list_cmd (machine w)))
      end in
  let out := fst (cmd_run_all cmd (machine_read w)) in
  let m1 := snd (cmd_run_all cmd (machine_read w)) in
  let after := PkgResource.stringify (parse_listing (fst (cmd_run list_cmd m1))) in
  let cs := Data.compare_dicts before after in
  (retcode out <> 0%Z /\ stderr out <> "" ->
     fst (operate d pkg confinement w) =
     Raise (CommandExecutionError
              match d with
              | Present => "Problem encountered installing package(s)"
              | Absent => "Problem encountered removing package(s)"
              end
              (Some (mkInfo (Some [stderr out]) (Some cs)))))
  /\ (retcode out = 0%Z \/ stderr out = "" ->
      fst (operate d pkg confinement w) = Return cs)
  /\ (cs = ∅ <-> before = after).
Proof.
  intros Hacc. simpl. rewrite operate_eq by done. simpl.
  rewrite seen_after_command, !machine_after_list_pkgs.
  change (match cached w with
          | Some inv => inv
          | None => parse_listing (fst (cmd_run list_cmd (machine w)))
          end) with (seen w).
  split; [|split].
  - intros [Hr He]. by rewrite command_failed_true, problem_eq.
  - intros Hok. by rewrite command_failed_false.
  - apply compare_dicts_empty.
Qed.

(** C4.  [install] with a name that begins with a dash, or with a
    confinement outside jailmode, classic and devmode, raises a
    [CommandExecutionError] without payload and leaves the world as it was:
    no command is executed and the cache is not touched.  [remove] with a
    name that begins with a dash does the same. *)
Theorem validation_before_any_call (w : World E) (name confinement : string) :
  Str.startswith "-" name = true \/ confinement ∉ confinements ->
  (exists msg,
     install name confinement w = (Raise (CommandExecutionError msg None), w))
  /\ (Str.startswith "-" name = true ->
      remove name confinement w =
      (Raise (CommandExecutionError "Invalid snap package name " None), w)).
Proof.
  intros Hbad. split.
  - unfold install. destruct (Str.startswith "-" name) eqn:Hname; [by eexists|].
    destruct Hbad as [?|Hconf]; [done|].
    rewrite bool_decide_eq_false_2 by done. by eexists.
  - intros Hname. unfold remove. by rewrite Hname.
Qed.

(** C6, as the module has it.  For a call of [install] or [remove] whose
    arguments are accepted, the snapshot taken after the command comes from a
    listing executed after the command and after the cache was invalidated.
    The snapshot taken before the command is read through the cache: it is
    the cached inventory when there is one, and comes from a listing only
    when nothing is cached. *)
Theorem snapshots_of_a_mutation (d : Desired) (w : World E)
    (name confinement : string) :
  accepted d name confinement ->
  let cmd := operate_cmd d (prefix_in w) name confinement in
  let before :=
    match cached w with
    | Some inv => inv
    | None => parse_listing (fst (cmd_run list_cmd (machine w)))
    end in
  let m1 := snd (cmd_run_all cmd (machine_read w)) in
  let after := parse_listing (fst (cmd_run list_cmd m1)) in
  changeset_of (fst (operate d name confinement w)) =
    Some (Data.compare_dicts (PkgResource.stringify before)
                             (PkgResource.stringify after))
  /\ trace (snd (operate d name confinement w)) =
     trace w ++ trace_read w ++ [RunFull cmd; Run list_cmd].
Proof.
  intros Hacc. simpl. rewrite operate_eq by done. simpl.
  rewrite seen_after_command, !machine_after_list_pkgs. split.
  - by destruct (command_failed _).
  - rewrite ?trace_after_list_pkgs. simpl. rewrite ?trace_after_list_pkgs.
    change (trace_read (after_command _ _)) with [Run list_cmd].
    by rewrite <- !app_assoc.
Qed.

(** C10.  [remove] takes a confinement and never looks at it: two calls
    that differ only in the confinement do the same, the command executed
    is the removal command of the name, and an error raised by [remove] is
    never the error about the confinement mode. *)
Theorem remove_ignores_confinement (w : World E) (name v1 v2 : string) :
  remove name v1 w = remove name v2 w
  /\ trace (snd (remove name v1 w)) =
     trace w ++
     (if Str.startswith "-" name then []
      else trace_read w ++ [RunFull (remove_cmd (prefix_in w) name); Run list_cmd])
  /\ (forall msg info,
        fst (remove name v1 w) = Raise (CommandExecutionError msg info) ->
        msg <> "Invalid confinement mode. Options are jailmode, classic and devmode").
Proof.
  split; [done|].
  destruct (Str.startswith "-" name) eqn:Hname.
  - unfold remove. rewrite Hname. simpl. rewrite app_nil_r.
    split; [done|]. by intros msg info [= <- <-].
  - rewrite remove_eq by done. simpl. split.
    + rewrite ?trace_after_list_pkgs. simpl. rewrite ?trace_after_list_pkgs.
      change (trace_read (after_command _ _)) with [Run list_cmd].
      by rewrite <- !app_assoc.
    + intros msg info. destruct (command_failed _); [|done]. by intros [= <- <-].
Qed.

End ModuleProperties.

(** ** Reading a listing *)

Lemma add_pkg_all_lists (d : Inventory) (n v : string) :
  all_lists d -> all_lists (PkgResource.add_pkg d n v).
Proof.
  intros Hd k x. unfold PkgResource.add_pkg.
  destruct (d !! n) as [[s|l]|] eqn:Hn; [apply Hd| |].
  - rewrite lookup_insert. case_decide; [intros [= <-]; by eexists|apply Hd].
  - rewrite lookup_insert. case_decide; [intros [= <-]; by eexists|apply Hd].
Qed.

Lemma add_pkg_lists_new (d : Inventory) (n v : string) :
  all_lists d -> lists_version (PkgResource.add_pkg d n v) n v.
Proof.
  intros Hd. unfold PkgResource.add_pkg, lists_version.
  destruct (d !! n) as [[s|l]|] eqn:Hn.
  - destruct (Hd _ _ Hn) as [l Hl]. done.
  - exists (l ++ [v]). rewrite lookup_insert_eq. split; [done|]. set_solver.
  - exists [v]. rewrite lookup_insert_eq. split; [done|]. set_solver.
Qed.

Lemma add_pkg_lists_old (d : Inventory) (n v n' v' : string) :
  lists_version d n' v' -> lists_version (PkgResource.add_pkg d n v) n' v'.
Proof.
  intros (vs & Hvs & Hin). unfold PkgResource.add_pkg, lists_version.
  destruct (d !! n) as [[s|l]|] eqn:Hn; [by exists vs| |].
  - destruct (decide (n = n')) as [->|Hne].
    + rewrite Hvs in Hn. injection Hn as <-.
      exists (vs ++ [v]). rewrite lookup_insert_eq. split; [done|]. set_solver.
    + exists vs. by rewrite lookup_insert_ne.
  - destruct (decide (n = n')) as [->|Hne]; [congruence|].
    exists vs. by rewrite lookup_insert_ne.
Qed.

Lemma add_pkg_keys (d : Inventory) (n v k : string) :
  is_Some (PkgResource.add_pkg d n v !! k) -> k = n \/ is_Some (d !! k).
Proof.
  unfold PkgResource.add_pkg.
  destruct (d !! n) as [[s|l]|] eqn:Hn; [by right| |];
    (destruct (decide (n = k)) as [->|Hne]; [by left|];
     rewrite lookup_insert_ne by done; by right).
Qed.

Lemma read_line_all_lists (i : nat) (line : string) (d : Inventory) :
  all_lists d -> all_lists (read_line i line d).
Proof.
  intros Hd. unfold read_line.
  destruct (Nat.eqb i 0 || String.eqb line ""); [done|].
  destruct (take 2 _) as [|a [|b [|c l]]]; try done.
  by apply add_pkg_all_lists.
Qed.

Lemma read_line_lists_old (i : nat) (line : string) (d : Inventory) (n v : string) :
  lists_version d n v -> lists_version (read_line i line d) n v.
Proof.
  intros Hd. unfold read_line.
  destruct (Nat.eqb i 0 || String.eqb line ""); [done|].
  destruct (take 2 _) as [|a [|b [|c l]]]; try done.
  by apply add_pkg_lists_old.
Qed.

Lemma is_row_test (i : nat) (line : string) :
  is_row i line -> Nat.eqb i 0 || String.eqb line "" = false.
Proof.
  intros [Hi Hl]. apply orb_false_intro.
  - by apply Nat.eqb_neq.
  - by apply String.eqb_neq.
Qed.

Lemma read_lines_all_lists (lines : list string) :
  forall i d, all_lists d -> all_lists (read_lines i lines d).
Proof.
  induction lines as [|l rest IH]; intros i d Hd; simpl; [done|].
  apply IH. by apply read_line_all_lists.
Qed.

Lemma read_lines_lists_old (lines : list string) :
  forall i d n v, lists_version d n v -> lists_version (read_lines i lines d) n v.
Proof.
  induction lines as [|l rest IH]; intros i d n v Hd; simpl; [done|].
  apply IH. by apply read_line_lists_old.
Qed.

(** A row with two fields puts its version under its name. *)
Lemma read_lines_row (lines : list string) :
  forall i d j line n v,
  all_lists d ->
  lines !! j = Some line -> is_row (i + j) line -> fields line = [n; v] ->
  lists_version (read_lines i lines d) n v.
Proof.
  induction lines as [|l rest IH]; intros i d j line n v Hd Hj Hrow Hf; [done|].
  destruct j as [|j]; simpl in *.
  - injection Hj as ->. apply read_lines_lists_old.
    unfold read_line. rewrite Nat.add_0_r in Hrow. rewrite is_row_test by done.
    unfold fields in Hf. rewrite Hf. by apply add_pkg_lists_new.
  - apply (IH (S i) _ j line); [by apply read_line_all_lists|done| |done].
    by replace (S i + j) with (i + S j) by lia.
Qed.

(** Every name of the inventory comes from a row with two fields. *)
Lemma read_lines_keys (lines : list string) :
  forall i d k,
  is_Some (read_lines i lines d !! k) ->
  is_Some (d !! k) \/
  exists j line v, lines !! j = Some line /\ is_row (i + j) line /\ fields line = [k; v].
Proof.
  induction lines as [|l rest IH]; intros i d k Hk; simpl in *; [by left|].
  destruct (IH _ _ _ Hk) as [Hd|(j & line & v & Hj & Hrow & Hf)].
  - unfold read_line in Hd.
    destruct (Nat.eqb i 0 || String.eqb l "") eqn:Htest; [by left|].
    destruct (take 2 _) as [|a [|b [|c t]]] eqn:Hf; try by left.
    destruct (add_pkg_keys _ _ _ _ Hd) as [->|?]; [|by left].
    right. exists 0, l, b. rewrite Nat.add_0_r. split; [done|]. split; [|done].
    apply orb_false_elim in Htest as [Hi Hl]. split.
    + by apply Nat.eqb_neq.
    + by apply String.eqb_neq.
  - right. exists (S j), line, v. split; [done|]. split; [|done].
    by replace (i + S j) with (S i + j) by lia.
Qed.

Lemma sorted_set_elem (l : list string) (v : string) :
  v ∈ PkgResource.sorted_set l <-> v ∈ l.
Proof.
  unfold PkgResource.sorted_set.
  rewrite merge_sort_Permutation. apply elem_of_remove_dups.
Qed.

Lemma parse_listing_row (out : string) (j : nat) (line n v : string) :
  Itertools.split out !! j = Some line -> is_row j line -> fields line = [n; v] ->
  lists_version (parse_listing out) n v.
Proof.
  intros Hj Hrow Hf.
  destruct (read_lines_row (Itertools.split out) 0 ∅ j line n v) as (vs & Hvs & Hin);
    try done.
  exists (PkgResource.sorted_set vs). split; [|by apply sorted_set_elem].
  unfold parse_listing, PkgResource.sort_pkglist. by rewrite lookup_fmap, Hvs.
Qed.

Lemma parse_listing_keys (out : string) (k : string) :
  is_Some (parse_listing out !! k) ->
  exists j line v,
    Itertools.split out !! j = Some line /\ is_row j line /\ fields line = [k; v].
Proof.
  unfold parse_listing, PkgResource.sort_pkglist. rewrite lookup_fmap.
  intros Hk. apply fmap_is_Some in Hk.
  destruct (read_lines_keys _ 0 ∅ k Hk) as [Hd|Hd]; [|done].
  rewrite lookup_empty in Hd. by destruct Hd.
Qed.

(** *** Fields and white space *)

Lemma space_is_space (a : ascii) : Ascii.eqb a " " = true -> Str.is_space a = true.
Proof. intros Ha. apply Ascii.eqb_eq in Ha. by subst. Qed.

Lemma not_space_neq (a : ascii) : Str.is_space a = false -> Ascii.eqb a " " = false.
Proof.
  intros Ha. destruct (Ascii.eqb a " ") eqn:Heq; [|done].
  apply space_is_space in Heq. congruence.
Qed.

Lemma split_cons_ne (sep a : ascii) (s : string) :
  Ascii.eqb a sep = false ->
  Str.split sep (String a s) =
  match Str.split sep s with
  | [] => [String a ""]
  | f :: fs => String a f :: fs
  end.
Proof. intros Ha. simpl. by rewrite Ha. Qed.

Lemma whitespace_fields_head (s : string) :
  s <> "" -> starts_with_space s = false ->
  exists t ts, whitespace_fields s = t :: ts.
Proof.
  destruct s as [|a s]; [done|]. simpl. intros _ Ha. rewrite Ha.
  destruct (starts_with_space s), (whitespace_fields s); by eexists _, _.
Qed.

(** [re.sub] and [split] together: the fields between single spaces are the
    white-space-delimited fields, with an empty field in front when the line
    begins with white space and one behind when it ends with white space. *)
Lemma split_sub_ws (s : string) :
  Str.split " " (Str.sub_ws true s)
  = whitespace_fields s ++ (if ends_with_space s then [""] else [])
  /\ Str.split " " (Str.sub_ws false s)
     = (if starts_with_space s then [""] else [])
         ++ whitespace_fields s ++ (if ends_with_space s then [""] else []).
Proof.
  induction s as [|a s [IHt IHf]]; [done|].
  assert (Hend : s <> "" -> ends_with_space (String a s) = ends_with_space s)
    by (by destruct s).
  simpl Str.sub_ws. simpl starts_with_space. simpl whitespace_fields.
  destruct (Str.is_space a) eqn:Ha.
  - assert (Hgap : (if ends_with_space (String a s) then [""] else [])
                   = (if ends_with_space s then [""] else [] : list string)).
    { destruct s; [simpl; by rewrite Ha|by rewrite Hend]. }
    rewrite Hgap. split; [done|].
    simpl. by rewrite IHt.
  - assert (Hcons : Str.split " " (String a (Str.sub_ws false s))
                    = match starts_with_space s, whitespace_fields s with
                      | false, t :: ts => String a t :: ts
                      | _, ts => String a "" :: ts
                      end ++ (if ends_with_space (String a s) then [""] else [])).
    { rewrite (split_cons_ne _ _ _ (not_space_neq a Ha)), IHf.
      destruct s as [|b s]; [simpl; by rewrite Ha|].
      rewrite Hend by done.
      destruct (starts_with_space (String b s)) eqn:Hb; [done|].
      destruct (whitespace_fields_head (String b s)) as (t & ts & Ht); [done|done|].
      by rewrite Ht. }
    by split.
Qed.

(** The two fields that the module unpacks are the first two of these. *)
Lemma fields_spaced (line : string) : fields line = take 2 (spaced_fields line).
Proof. unfold fields, spaced_fields. by destruct (split_sub_ws line) as [_ ->]. Qed.

Lemma fields_of_tokens (line n v : string) (rest : list string) :
  starts_with_space line = false ->
  whitespace_fields line = n :: v :: rest ->
  fields line = [n; v].
Proof.
  intros Hs Ht. rewrite fields_spaced. unfold spaced_fields. by rewrite Hs, Ht.
Qed.

Lemma sub_ws_no_space (s : string) (b : bool) :
  no_space s = true -> Str.sub_ws b s = s.
Proof.
  induction s as [|a s IH] in b |- *; simpl; [done|].
  intros Hs. apply andb_true_iff in Hs as [Ha Hs].
  apply negb_true_iff in Ha. by rewrite Ha, IH.
Qed.

Lemma split_no_space (s : string) :
  no_space s = true -> Str.split " " s = [s].
Proof.
  induction s as [|a s IH]; simpl; [done|].
  intros Hs. apply andb_true_iff in Hs as [Ha Hs].
  apply negb_true_iff in Ha. by rewrite (not_space_neq a Ha), IH.
Qed.

(** A line without white space has a single field. *)
Lemma fields_no_white_space (line : string) :
  no_space line = true -> fields line = [line].
Proof.
  intros Hs. unfold fields. by rewrite sub_ws_no_space, split_no_space.
Qed.

Lemma split_two (s : string) :
  Str.contains " " s = true -> exists a b l, Str.split " " s = a :: b :: l.
Proof.
  induction s as [|c s IH]; simpl; [done|].
  destruct (Ascii.eqb c " ").
  - intros _. destruct (Str.split " " s) as [|f fs] eqn:Hs; [|by eexists _, _, _].
    destruct s; simpl in Hs; [done|]. by repeat case_match.
  - intros Hc. destruct (IH Hc) as (a & b & l & ->). by eexists _, _, _.
Qed.

Lemma sub_ws_contains (s : string) :
  no_space s = false -> Str.contains " " (Str.sub_ws false s) = true.
Proof.
  induction s as [|a s IH]; simpl; [done|].
  destruct (Str.is_space a) eqn:Ha; simpl; [done|].
  intros Hs. by rewrite (not_space_neq a Ha), IH.
Qed.

(** A line with white space has two fields. *)
Lemma fields_white_space (line : string) :
  no_space line = false -> exists n v, fields line = [n; v].
Proof.
  intros Hs. unfold fields.
  destruct (split_two _ (sub_ws_contains line Hs)) as (a & b & l & ->).
  by exists a, b.
Qed.

Lemma line_log_eq (i : nat) (line : string) :
  line_log i line =
  parse_problem <$> (if negb (Nat.eqb i 0) && negb (String.eqb line "") && no_space line
                     then [line] else []).
Proof.
  unfold line_log. rewrite <- negb_orb.
  destruct (Nat.eqb i 0 || String.eqb line ""); [done|]. simpl.
  destruct (no_space line) eqn:Hs.
  - pose proof (fields_no_white_space line Hs) as Hf. unfold fields in Hf.
    by rewrite Hf.
  - destruct (fields_white_space line Hs) as (n & v & Hf). unfold fields in Hf.
    by rewrite Hf.
Qed.

Lemma lines_log_eq (lines : list string) (i : nat) :
  lines_log i lines = parse_problem <$> unreadable_rows i lines.
Proof.
  induction lines as [|l rest IH] in i |- *; simpl; [done|].
  by rewrite fmap_app, line_log_eq, IH.
Qed.

Lemma unreadable_rows_messages (lines : list string) (i : nat) :
  parse_problem <$> unreadable_rows i lines =
  (fun line => "Problem parsing snap list: Unexpected formatting in line: '"
                 +:+ line +:+ "'") <$> unreadable_rows i lines.
Proof.
  induction lines as [|l rest IH] in i |- *; simpl; [done|].
  rewrite !fmap_app, IH. f_equal.
  destruct (negb (Nat.eqb i 0) && negb (String.eqb l "")); [|done]. simpl.
  destruct (no_space l) eqn:Hs; [|done]. simpl.
  unfold parse_problem. by rewrite sub_ws_no_space.
Qed.

Lemma unreadable_rows_elem (lines : list string) (i : nat) (line : string) :
  line ∈ unreadable_rows i lines <->
  exists j, lines !! j = Some line /\ is_row (i + j) line /\ no_space line = true.
Proof.
  induction lines as [|l rest IH] in i |- *; simpl.
  - split; [by intros ?%elem_of_nil|by intros (j & ? & _)].
  - rewrite elem_of_app, IH. split.
    + intros [Hl|(j & Hj & Hrow & Hs)].
      * destruct (Nat.eqb i 0) eqn:Hi; [by apply elem_of_nil in Hl|].
        destruct (String.eqb l "") eqn:Hne; [by apply elem_of_nil in Hl|].
        destruct (no_space l) eqn:Hs; [|by apply elem_of_nil in Hl].
        apply list_elem_of_singleton in Hl as ->. exists 0.
        rewrite Nat.add_0_r. split; [done|]. split; [|done]. split.
        -- by apply Nat.eqb_neq.
        -- by apply String.eqb_neq.
      * exists (S j). split; [done|]. split; [|done].
        by replace (i + S j) with (S i + j) by lia.
    + intros ([|j] & Hj & Hrow & Hs); simpl in Hj.
      * injection Hj as ->. left. rewrite Nat.add_0_r in Hrow.
        destruct Hrow as [Hi Hne].
        apply Nat.eqb_neq in Hi. apply String.eqb_neq in Hne.
        rewrite Hi, Hne, Hs. apply list_elem_of_here.
      * right. exists j. split; [done|]. split; [|done].
        by replace (S i + j) with (i + S j) by lia.
Qed.

(** ** Properties of the inventory cache *)

Section CacheProperties.
Context {E : Type} `{Host E}.

(** C5, as the module has it.  While an inventory is cached, [list_pkgs]
    executes no command, whatever shape is asked for, and returns the cached
    inventory in that shape.  In string shape the result is a copy: a new
    object, and nothing the caller does to it changes the cache.  In list
    shape the result is the cached object itself. *)
Theorem cache_hit_returns (w : World E) (c : nat) (val : bool) :
  context w = Some c ->
  c < length (store w) ->
  exists r w',
    list_pkgs val no_kwargs w = (Return r, w')
    /\ obj w' r = shaped val (obj w c)
    /\ trace w' = trace w
    /\ machine w' = machine w
    /\ cached w' = cached w
    /\ (if val then r = c
        else r <> c /\ forall f, cached (snd (update r f w')) = cached w).
Proof.
  intros Hc Hlt. rewrite (list_pkgs_hit w c val Hc).
  destruct val.
  - exists c, w. by repeat split.
  - eexists _, _. split; [done|].
    unfold cached; simpl. rewrite Hc; simpl. rewrite obj_alloc.
    repeat split; try done.
    + unfold obj; simpl. by rewrite lookup_app_l.
    + lia.
    + intros f. unfold obj; simpl.
      rewrite list_lookup_insert_ne by lia. by rewrite lookup_app_l.
Qed.

(** C7.  [_clear_versions()] returns normally and leaves nothing cached,
    whatever was read before and whether or not something was cached.  The
    [list_pkgs] call that follows executes the listing command exactly
    once, and returns what that listing yields. *)
Theorem read_after_invalidation (w : World E) (flags : list bool) (val : bool) :
  let w1 := snd (reads flags w) in
  let w2 := snd (_clear_versions w1) in
  _clear_versions w1 = (Return tt, w2)
  /\ cached w2 = None
  /\ exists r w3,
       list_pkgs val no_kwargs w2 = (Return r, w3)
       /\ trace w3 = trace w2 ++ [Run list_cmd]
       /\ obj w3 r = shaped val (parse_listing (fst (cmd_run list_cmd (machine w2)))).
Proof.
  simpl. split; [done|]. split; [done|].
  eexists _, _. rewrite list_pkgs_eq. split; [done|].
  rewrite trace_after_list_pkgs, obj_after_list_pkgs. done.
Qed.

Lemma logged_after_list_pkgs (w : World E) (val : bool) :
  context w = None ->
  logged (after_list_pkgs val w) =
  logged w ++ (parse_problem <$>
                 unreadable_rows 0 (Itertools.split (fst (cmd_run list_cmd (machine w))))).
Proof.
  intros Hc. unfold after_list_pkgs, log_read. rewrite Hc. simpl.
  by rewrite lines_log_eq.
Qed.

Lemma seen_uncached (w : World E) :
  context w = None -> seen w = parse_listing (fst (cmd_run list_cmd (machine w))).
Proof. intros Hc. unfold seen, cached. by rewrite Hc. Qed.

Lemma shaped_lookup (val : bool) (d : Inventory) (n : string) (v : VersionValue) :
  d !! n = Some v -> shaped val d !! n = Some (shaped_value val v).
Proof.
  intros Hn. destruct val; simpl; [done|].
  unfold PkgResource.stringify. by rewrite lookup_fmap, Hn.
Qed.

Lemma shaped_is_Some (val : bool) (d : Inventory) (n : string) :
  is_Some (shaped val d !! n) -> is_Some (d !! n).
Proof.
  destruct val; simpl; [done|].
  unfold PkgResource.stringify. rewrite lookup_fmap. by intros ?%fmap_is_Some.
Qed.

(** C9, as the module has it.  When nothing is cached, [list_pkgs] returns
    normally whatever the listing holds.  What it adds to the log is one
    message for each row (a line after the header that is not blank) that
    holds no white space, in order, and nothing else.  Every other row puts
    a version under a name, whatever the other lines are: the first two of
    its fields between runs of white space, where an empty field stands in
    front if the row begins with white space and behind if it ends with
    white space.  For a row that does not begin with white space and has two
    white-space-delimited fields or more, these are the first two of them.
    The inventory holds no name but those of rows with white space. *)
Theorem listing_skips_malformed_rows (w : World E) (val : bool) :
  context w = None ->
  let lines := Itertools.split (fst (cmd_run list_cmd (machine w))) in
  let message := fun line =>
    "Problem parsing snap list: Unexpected formatting in line: '" +:+ line +:+ "'" in
  exists r w',
    list_pkgs val no_kwargs w = (Return r, w')
    /\ logged w' = logged w ++ (message <$> unreadable_rows 0 lines)
    /\ (forall i line, lines !! i = Some line -> is_row i line ->
          if no_space line
          then message line ∈ logged w'
          else exists n v vs,
                 take 2 (spaced_fields line) = [n; v] /\ v ∈ vs
                 /\ obj w' r !! n = Some (shaped_value val (VList vs)))
    /\ (forall i line n v rest, lines !! i = Some line -> is_row i line ->
          starts_with_space line = false ->
          whitespace_fields line = n :: v :: rest ->
          exists vs, v ∈ vs /\ obj w' r !! n = Some (shaped_value val (VList vs)))
    /\ (forall n, is_Some (obj w' r !! n) ->
          exists i line v,
            lines !! i = Some line /\ is_row i line
            /\ no_space line = false /\ take 2 (spaced_fields line) = [n; v]).
Proof.
  intros Hc. simpl. eexists _, _. rewrite list_pkgs_eq. split; [done|].
  rewrite obj_after_list_pkgs, logged_after_list_pkgs, seen_uncached by done.
  rewrite unreadable_rows_messages.
  split; [done|].
  assert (Hput : forall i line n v,
            Itertools.split (fst (cmd_run list_cmd (machine w))) !! i = Some line ->
            is_row i line -> fields line = [n; v] ->
            exists vs, v ∈ vs
              /\ shaped val (parse_listing (fst (cmd_run list_cmd (machine w)))) !! n
                 = Some (shaped_value val (VList vs))).
  { intros i line n v Hi Hrow Hf.
    destruct (parse_listing_row _ i line n v Hi Hrow Hf) as (vs & Hvs & Hin).
    exists vs. split; [done|]. by apply shaped_lookup. }
  split; [|split].
  - intros i line Hi Hrow. destruct (no_space line) eqn:Hs.
    + apply elem_of_app. right.
      apply (list_elem_of_fmap_2 (fun l : string => _ +:+ l +:+ _)).
      apply unreadable_rows_elem. by exists i.
    + destruct (fields_white_space line Hs) as (n & v & Hf).
      destruct (Hput i line n v Hi Hrow Hf) as (vs & Hin & Hvs).
      exists n, v, vs. by rewrite <- fields_spaced.
  - intros i line n v rest Hi Hrow Hs Ht.
    apply (Hput i line n v Hi Hrow). by apply (fields_of_tokens line n v rest).
  - intros n Hn. apply shaped_is_Some in Hn.
    destruct (parse_listing_keys _ n Hn) as (i & line & v & Hi & Hrow & Hf).
    exists i, line, v. rewrite <- fields_spaced.
    repeat split; try done; try apply Hrow.
    destruct (no_space line) eqn:Hs; [|done].
    rewrite (fields_no_white_space line Hs) in Hf. done.
Qed.

End CacheProperties.

(** ** Properties of the state module *)

Section StateProperties.
Context {E : Type} `{Host E}.

(** What the state functions do after the version query. *)
Lemma installed_eq (w : World E) (name confinement : string) :
  Str.contains "*" name = false ->
  installed name confinement w =
  let w1 := after_list_pkgs true w in
  if negb (String.eqb (PkgResource.join_value (default (VList []) (seen w !! name))) "")
  then (Return (satisfied name), w1)
  else match install name confinement w1 with
       | (Return cs, w2) =>
           (Return (mkReport name true {["installed" := CV_set cs]} ""), w2)
       | (Raise (CommandExecutionError msg info), w2) =>
           (Return (failed_report "installing" (satisfied name) msg info), w2)
       | (Raise e, w2) => (Raise e, w2)
       end.
Proof.
  intros Hn. unfold installed. unfold mbind, Py_bind at 1.
  rewrite version_single by done. simpl.
  destruct (negb _); [done|].
  unfold try_except, mbind, Py_bind, mret, Py_ret.
  destruct (install name confinement (after_list_pkgs true w)) as [[cs|[msg info|x]] w2];
    done.
Qed.

Lemma removed_eq (w : World E) (name : string) :
  Str.contains "*" name = false ->
  removed name w =
  let w1 := after_list_pkgs true w in
  if String.eqb (PkgResource.join_value (default (VList []) (seen w !! name))) ""
  then (Return (satisfied name), w1)
  else match remove name "jailmode" w1 with
       | (Return cs, w2) =>
           (Return (mkReport name true {["installed" := CV_set cs]} ""), w2)
       | (Raise (CommandExecutionError msg info), w2) =>
           (Return (failed_report "removing" (satisfied name) msg info), w2)
       | (Raise e, w2) => (Raise e, w2)
       end.
Proof.
  intros Hn. unfold removed. unfold mbind, Py_bind at 1.
  rewrite version_single by done. simpl.
  rewrite negb_involutive.
  destruct (String.eqb _ ""); [done|].
  unfold try_except, mbind, Py_bind, mret, Py_ret.
  destruct (remove name "jailmode" (after_list_pkgs true w)) as [[cs|[msg info|x]] w2];
    done.
Qed.

(** A name with a wildcard makes both state functions raise [NameError]. *)
Lemma ensure_glob (d : Desired) (w : World E) (name confinement : string) :
  Str.contains "*" name = true ->
  ensure d name confinement w = (Raise (NameError "fnmatch"), after_list_pkgs true w).
Proof.
  intros Hn.
  assert (Hv : version [name] false no_kwargs w
               = (Raise (NameError "fnmatch"), after_list_pkgs true w)).
  { apply version_glob. by constructor. }
  destruct d; simpl; [unfold installed|unfold removed];
    unfold mbind, Py_bind at 1; by rewrite Hv.
Qed.

(** An operation leaves an inventory cached when it starts with one. *)
Lemma context_after_operate (d : Desired) (w : World E) (name confinement : string) :
  is_Some (context w) -> is_Some (context (snd (operate d name confinement w))).
Proof.
  intros Hw.
  destruct (Str.startswith "-" name) eqn:Hname.
  { destruct d; simpl; [unfold install|unfold remove]; by rewrite Hname. }
  destruct d.
  - destruct (decide (confinement ∈ confinements)) as [Hc|Hc].
    + rewrite operate_eq by done. apply context_after_list_pkgs.
    + simpl. unfold install. rewrite Hname.
      by rewrite bool_decide_eq_false_2 by done.
  - rewrite operate_eq by done. apply context_after_list_pkgs.
Qed.

(** A state function that returns a report has cached an inventory, and its
    name has no wildcard. *)
Lemma ensure_returns (d : Desired) (w : World E) (name confinement : string)
    (r : StateReport) (w1 : World E) :
  ensure d name confinement w = (Return r, w1) ->
  Str.contains "*" name = false /\ is_Some (context w1).
Proof.
  intros Hret.
  destruct (Str.contains "*" name) eqn:Hn.
  { exfalso. rewrite ensure_glob in Hret by done. done. }
  split; [done|].
  pose proof (context_after_list_pkgs w true) as Hctx.
  destruct d; simpl in Hret.
  - rewrite installed_eq in Hret by done. simpl in Hret.
    destruct (negb _); [by injection Hret as _ <-|].
    pose proof (context_after_operate Present _ name confinement Hctx) as Hop.
    simpl in Hop.
    destruct (install name confinement (after_list_pkgs true w))
      as [[cs|[msg info|x]] w2]; simpl in *; by injection Hret as _ <-.
  - rewrite removed_eq in Hret by done. simpl in Hret.
    destruct (String.eqb _ ""); [by injection Hret as _ <-|].
    pose proof (context_after_operate Absent _ name "jailmode" Hctx) as Hop.
    simpl in Hop.
    destruct (remove name "jailmode" (after_list_pkgs true w))
      as [[cs|[msg info|x]] w2]; simpl in *; by injection Hret as _ <-.
Qed.

End StateProperties.

Section Convergence.
Context {E : Type} `{Host E}.

Lemma cached_after_version (w : World E) :
  cached (after_list_pkgs true w) = Some (seen w).
Proof.
  unfold after_list_pkgs, seen, cached.
  destruct (context w) as [c|] eqn:Hc; simpl; [by rewrite Hc|].
  unfold obj; simpl. rewrite lookup_app_r by lia.
  by replace (S (length (store w)) - length (store w)) with 1 by lia.
Qed.

Lemma failed_report_result (what : string) (ret : StateReport) (msg : string)
    (info : option Info) :
  result (failed_report what ret msg info) = false.
Proof. unfold failed_report. by repeat case_match. Qed.

(** With an inventory cached, the state functions decide from it alone. *)
Lemma ensure_settled (d : Desired) (w : World E) (name confinement : string) :
  Str.contains "*" name = false ->
  is_Some (context w) ->
  settled d name w ->
  ensure d name confinement w = (Return (satisfied name), w).
Proof.
  intros Hn [c Hc] Hs.
  assert (Hw : after_list_pkgs true w = w).
  { unfold after_list_pkgs. by rewrite Hc. }
  assert (Hseen : PkgResource.join_value (default (VList []) (seen w !! name))
                  = version_in_cache name w).
  { unfold seen, version_in_cache, cached. by rewrite Hc. }
  destruct d; simpl in *.
  - rewrite installed_eq by done. simpl. rewrite Hw, Hseen.
    by apply String.eqb_neq in Hs as ->.
  - rewrite removed_eq by done. simpl. rewrite Hw, Hseen, Hs.
    by rewrite String.eqb_refl.
Qed.

(** A state function that finds nothing to do leaves the desired state
    holding in the cached inventory. *)
Lemma satisfied_settled (d : Desired) (w : World E) (name confinement : string)
    (r : StateReport) (w1 : World E) :
  ensure d name confinement w = (Return r, w1) ->
  result r = true -> changes r = ∅ ->
  settled d name w1.
Proof.
  intros Hret Hres Hch.
  destruct (ensure_returns _ _ _ _ _ _ Hret) as [Hn _].
  destruct d; simpl in *.
  - rewrite installed_eq in Hret by done. simpl in Hret.
    destruct (negb _) eqn:Hv.
    + injection Hret as _ <-. unfold version_in_cache.
      rewrite cached_after_version. apply negb_true_iff in Hv.
      by apply String.eqb_neq.
    + destruct (install name confinement (after_list_pkgs true w))
        as [[cs|[msg info|x]] w2]; simplify_eq; simpl in *.
      by rewrite failed_report_result in Hres.
  - rewrite removed_eq in Hret by done. simpl in Hret.
    destruct (String.eqb _ "") eqn:Hv.
    + injection Hret as _ <-. unfold version_in_cache.
      rewrite cached_after_version. by apply String.eqb_eq.
    + destruct (remove name "jailmode" (after_list_pkgs true w))
        as [[cs|[msg info|x]] w2]; simplify_eq; simpl in *.
      by rewrite failed_report_result in Hres.
Qed.

(** Arguments that are not accepted: the operation raises at once. *)
Lemma operate_rejected (d : Desired) (w : World E) (pkg confinement : string) :
  ~ accepted d pkg confinement ->
  exists msg,
    operate d pkg confinement w = (Raise (CommandExecutionError msg None), w)
    /\ (msg = "Invalid snap package name " \/
        msg = "Invalid confinement mode. Options are jailmode, classic and devmode").
Proof.
  intros Hrej. unfold accepted in Hrej.
  destruct (Str.startswith "-" pkg) eqn:Hname.
  { exists "Invalid snap package name ". split; [|by left].
    destruct d; simpl; [unfold install|unfold remove]; by rewrite Hname. }
  destruct d; simpl.
  - destruct (decide (confinement ∈ confinements)) as [Hc|Hc]; [by destruct Hrej|].
    eexists. split; [|by right]. unfold install. rewrite Hname.
    by rewrite bool_decide_eq_false_2 by done.
  - by destruct Hrej.
Qed.

(** With an inventory cached that does not show the desired state, the
    state functions go on to the operation. *)
Lemma ensure_unsettled (d : Desired) (w : World E) (pkg confinement : string) :
  Str.contains "*" pkg = false ->
  is_Some (context w) ->
  ~ settled d pkg w ->
  ensure d pkg confinement w =
  match operate d pkg confinement w with
  | (Return cs, w2) =>
      (Return (mkReport pkg true {["installed" := CV_set cs]} ""), w2)
  | (Raise (CommandExecutionError msg info), w2) =>
      (Return (failed_report (operation_name d) (satisfied pkg) msg info), w2)
  | (Raise e, w2) => (Raise e, w2)
  end.
Proof.
  intros Hn [c Hc] Hs.
  assert (Hw : after_list_pkgs true w = w).
  { unfold after_list_pkgs. by rewrite Hc. }
  assert (Hseen : PkgResource.join_value (default (VList []) (seen w !! pkg))
                  = version_in_cache pkg w).
  { unfold seen, version_in_cache, cached. by rewrite Hc. }
  destruct d; simpl in *.
  - rewrite installed_eq by done. simpl. rewrite Hw, Hseen.
    destruct (String.eqb (version_in_cache pkg w) "") eqn:Hv; [done|].
    by apply String.eqb_neq in Hv.
  - rewrite removed_eq by done. simpl. rewrite Hw, Hseen.
    destruct (String.eqb (version_in_cache pkg w) "") eqn:Hv; [|done].
    by apply String.eqb_eq in Hv.
Qed.

(** C1, as the module has it.  Let [installed] (or [removed]) return a
    report.  When the inventory it leaves cached lists the package with a
    non-empty version (or does not, for [removed]), the next call of the same
    state returns the report of a state with nothing to do: result true, no
    changes, empty comment, and leaves the world as it found it, so it
    executes no command at all.  When the cached inventory does not show the
    desired state, the next call does not return that report: with arguments
    that are accepted it executes the command of the operation again and then
    one listing; with arguments that are not accepted it executes nothing and
    returns a report with result false. *)
Theorem second_call_is_satisfied (d : Desired) (w : World E)
    (pkg confinement : string) (r1 : StateReport) (w1 : World E) :
  ensure d pkg confinement w = (Return r1, w1) ->
  (settled d pkg w1 -> ensure d pkg confinement w1 = (Return (satisfied pkg), w1))
  /\ (~ settled d pkg w1 ->
      (accepted d pkg confinement ->
       exists r2,
         fst (ensure d pkg confinement w1) = Return r2
         /\ r2 <> satisfied pkg
         /\ trace (snd (ensure d pkg confinement w1)) =
            trace w1 ++ [RunFull (operate_cmd d (prefix_in w1) pkg confinement);
                         Run list_cmd])
      /\ (~ accepted d pkg confinement ->
          exists r2,
            ensure d pkg confinement w1 = (Return r2, w1) /\ result r2 = false)).
Proof.
  intros Hret.
  destruct (ensure_returns _ _ _ _ _ _ Hret) as [Hn Hctx].
  split; [intros Hs; by apply ensure_settled|].
  intros Hs. rewrite (ensure_unsettled d w1 pkg confinement Hn Hctx Hs). split.
  - intros Hacc. rewrite operate_eq by done. cbv zeta.
    assert (Htr : trace (after_list_pkgs false
                     (after_command (operate_cmd d (prefix_in w1) pkg confinement)
                        (after_list_pkgs false w1))) =
                  trace w1 ++ [RunFull (operate_cmd d (prefix_in w1) pkg confinement);
                               Run list_cmd]).
    { destruct Hctx as [c Hc].
      rewrite trace_after_list_pkgs. simpl. rewrite trace_after_list_pkgs.
      change (trace_read (after_command _ _)) with [Run list_cmd].
      unfold trace_read. rewrite Hc. by rewrite app_nil_r, <- app_assoc. }
    destruct (command_failed _).
    + eexists. split; [done|]. split; [|done].
      intros Heq. apply (f_equal result) in Heq.
      by rewrite failed_report_result in Heq.
    + eexists. split; [done|]. split; [|done].
      intros Heq. apply (f_equal changes) in Heq. simpl in Heq.
      by apply (f_equal (fun m => m !! "installed")) in Heq.
  - intros Hrej.
    destruct (operate_rejected d w1 pkg confinement Hrej) as (msg & -> & _).
    eexists. split; [done|]. apply failed_report_result.
Qed.

(** A state function that finds nothing to do finds nothing to do when it
    is called again, and that second call leaves the world as it is. *)
Theorem nothing_to_do_twice (d : Desired) (w : World E)
    (pkg confinement : string) (r1 : StateReport) (w1 : World E) :
  ensure d pkg confinement w = (Return r1, w1) ->
  result r1 = true -> changes r1 = ∅ ->
  ensure d pkg confinement w1 = (Return (satisfied pkg), w1).
Proof.
  intros Hret Hres Hch.
  destruct (ensure_returns _ _ _ _ _ _ Hret) as [Hn Hctx].
  apply ensure_settled; [done|done|].
  by apply (satisfied_settled d w pkg confinement r1).
Qed.

(** One name without a wildcard: [version] returns the single version, as
    a string joined with commas or as the list, and the empty string (or
    the empty list) for a name that is not installed. *)
Theorem version_of_one_name (w : World E) (pkg : string) (val : bool) :
  Str.contains "*" pkg = false ->
  fst (version [pkg] val no_kwargs w) =
  Return (Single (match seen w !! pkg with
                  | Some v => shaped_value val v
                  | None => if val then VList [] else VStr ""
                  end)).
Proof.
  intros Hn. rewrite version_single by done. simpl.
  destruct (seen w !! pkg); [done|]. by destruct val.
Qed.

(** C3.  A state function never ends in a [CommandExecutionError].  When the
    version query finds that the operation is needed and the operation raises
    [CommandExecutionError], the state function returns a report with result
    false.  If the error has a payload, the changes are the payload's change
    set (none when the payload has no change set) and the comment is the
    error's text without the changes; otherwise there are no changes and the
    comment is the fixed sentence followed by the error's message. *)
Theorem operation_error_is_reported (d : Desired) (w : World E)
    (pkg confinement : string) :
  (forall msg info w',
     ensure d pkg confinement w <> (Raise (CommandExecutionError msg info), w'))
  /\ (forall v w1 msg info w2,
        version [pkg] false no_kwargs w = (Return v, w1) ->
        truthy v = match d with Present => false | Absent => true end ->
        operate d pkg confinement w1 = (Raise (CommandExecutionError msg info), w2) ->
        exists r,
          ensure d pkg confinement w = (Return r, w2)
          /\ name r = pkg
          /\ result r = false
          /\ changes r =
             match info with
             | Some i => if info_true i then CV_diff <$> default ∅ (info_changes i) else ∅
             | None => ∅
             end
          /\ comment r =
             match info with
             | Some i =>
                 if info_true i then strerror_without_changes msg i
                 else "An error was encountered while " +:+ operation_name d
                        +:+ " package(s): " +:+ msg
             | None =>
                 "An error was encountered while " +:+ operation_name d
                   +:+ " package(s): " +:+ msg
             end).
Proof.
  split.
  - intros msg info w' Hret.
    destruct (Str.contains "*" pkg) eqn:Hn.
    { by rewrite ensure_glob in Hret. }
    destruct d; simpl in Hret.
    + rewrite installed_eq in Hret by done. simpl in Hret.
      destruct (negb _); [done|].
      by destruct (install pkg confinement (after_list_pkgs true w))
        as [[cs|[m i|x]] w2].
    + rewrite removed_eq in Hret by done. simpl in Hret.
      destruct (String.eqb _ ""); [done|].
      by destruct (remove pkg "jailmode" (after_list_pkgs true w))
        as [[cs|[m i|x]] w2].
  - intros v w1 msg info w2 Hv Hneed Hop.
    destruct (Str.contains "*" pkg) eqn:Hn.
    { rewrite version_glob in Hv by (by constructor). done. }
    rewrite version_single in Hv by done. injection Hv as <- <-.
    simpl in Hneed.
    destruct d; simpl in *.
    + rewrite installed_eq by done. simpl. rewrite Hneed, Hop.
      eexists. split; [done|]. unfold failed_report.
      destruct info as [i|]; [destruct (info_true i)|]; done.
    + change (remove pkg confinement) with (remove pkg "jailmode") in Hop.
      rewrite removed_eq by done. simpl.
      apply negb_true_iff in Hneed. rewrite Hneed, Hop.
      eexists. split; [done|]. unfold failed_report.
      destruct info as [i|]; [destruct (info_true i)|]; done.
Qed.

End Convergence.

(** ** Runs on the small machine *)

Lemma install_operate {E} `{Host E} (n c : string) (w : World E) :
  install n c w = operate Present n c w.
Proof. reflexivity. Qed.

(** C1 at an input where the statement of the spec fails: the store does not
    offer the snap, so the first [installed] fails, and the second call tries
    the installation again and fails again. *)
Lemma second_call_fails_again :
  exists r1 w1 r2 w2,
    installed "nosuch" "jailmode" (Demo.boot []) = (Return r1, w1)
    /\ installed "nosuch" "jailmode" w1 = (Return r2, w2)
    /\ result r2 = false
    /\ trace w2 =
       trace w1 ++ [RunFull (install_cmd [] "nosuch" "jailmode"); Run list_cmd].
Proof.
  eexists _, _, _, _.
  split; [vm_compute; reflexivity|].
  split; [vm_compute; reflexivity|].
  split; vm_compute; reflexivity.
Qed.

Lemma ensure_installed {E} `{Host E} (n c : string) (w : World E) :
  installed n c w = ensure Present n c w.
Proof. reflexivity. Qed.

(** The second [installed] of a snap that the first call installed, and of
    one that the store does not offer. *)
Lemma second_call_is_satisfied_witness :
  (exists r1, installed "foo" "jailmode" (Demo.boot [])
              = (Return r1, snd (installed "foo" "jailmode" (Demo.boot []))))
  /\ settled Present "foo" (snd (installed "foo" "jailmode" (Demo.boot [])))
  /\ installed "foo" "jailmode" (snd (installed "foo" "jailmode" (Demo.boot [])))
     = (Return (satisfied "foo"), snd (installed "foo" "jailmode" (Demo.boot [])))
  /\ ~ settled Present "nosuch" (snd (installed "nosuch" "jailmode" (Demo.boot [])))
  /\ trace (snd (installed "nosuch" "jailmode"
                   (snd (installed "nosuch" "jailmode" (Demo.boot [])))))
     = [Run list_cmd;
        RunFull (install_cmd [] "nosuch" "jailmode"); Run list_cmd;
        RunFull (install_cmd [] "nosuch" "jailmode"); Run list_cmd].
Proof.
  assert (Hfoo : exists r1, ensure Present "foo" "jailmode" (Demo.boot [])
                   = (Return r1, snd (ensure Present "foo" "jailmode" (Demo.boot []))))
    by (eexists; vm_compute; reflexivity).
  assert (Hs : settled Present "foo" (snd (ensure Present "foo" "jailmode" (Demo.boot []))))
    by (vm_compute; discriminate).
  assert (Hno : exists r1, ensure Present "nosuch" "jailmode" (Demo.boot [])
                  = (Return r1, snd (ensure Present "nosuch" "jailmode" (Demo.boot []))))
    by (eexists; vm_compute; reflexivity).
  assert (Hu : ~ settled Present "nosuch"
                   (snd (ensure Present "nosuch" "jailmode" (Demo.boot []))))
    by (intros Hx; apply Hx; vm_compute; reflexivity).
  assert (Hacc : accepted Present "nosuch" "jailmode").
  { split; [reflexivity|]. unfold confinements. apply list_elem_of_here. }
  rewrite !ensure_installed.
  split; [exact Hfoo|]. split; [exact Hs|].
  destruct Hfoo as [r1 Hfoo]. destruct Hno as [r1' Hno].
  destruct (second_call_is_satisfied Present (Demo.boot []) "foo" "jailmode" _ _ Hfoo)
    as [Hsat _].
  split; [exact (Hsat Hs)|]. split; [exact Hu|].
  destruct (second_call_is_satisfied Present (Demo.boot []) "nosuch" "jailmode" _ _ Hno)
    as [_ Hagain].
  destruct (Hagain Hu) as [Hrun _].
  destruct (Hrun Hacc) as (r2 & _ & _ & Htr).
  rewrite Htr. vm_compute. reflexivity.
Defined.

(** C2 at an input where the statement of the spec fails: the cache lists
    [half], which is no longer installed; its installation fails half-way and
    leaves it installed, and the error carries an empty change set although
    the inventory of the machine has changed. *)
Lemma stale_cache_hides_the_change :
  parse_listing (fst (cmd_run list_cmd (machine Demo.forgotten))) = ∅
  /\ parse_listing
       (fst (cmd_run list_cmd (machine (snd (install "half" "jailmode" Demo.forgotten)))))
     = {["half" := VList ["0.5"]]}
  /\ fst (install "half" "jailmode" Demo.forgotten)
     = Raise (CommandExecutionError "Problem encountered installing package(s)"
                (Some (mkInfo (Some ["error: hook failed"]) (Some ∅)))).
Proof.
  split; [vm_compute; reflexivity|].
  split; vm_compute; reflexivity.
Qed.

(** An installation that fails half-way: the command exits nonzero with an
    error stream, the snap is listed afterwards, and the error carries the
    change. *)
Lemma diff_computed_unconditionally_witness :
  accepted Present "half" "jailmode"
  /\ fst (install "half" "jailmode" (Demo.boot [])) =
     Raise (CommandExecutionError "Problem encountered installing package(s)"
              (Some (mkInfo (Some ["error: hook failed"])
                            (Some {["half" := mkDiff (VStr "") (VStr "0.5")]})))).
Proof.
  assert (Hacc : accepted Present "half" "jailmode").
  { split; [reflexivity|]. unfold confinements. set_solver. }
  split; [exact Hacc|].
  pose proof (diff_computed_unconditionally Present (Demo.boot []) "half" "jailmode"
                Hacc) as Hthm.
  cbv zeta in Hthm. destruct Hthm as [Hout _].
  rewrite install_operate, Hout.
  - vm_compute. reflexivity.
  - split; vm_compute; discriminate.
Defined.

(** A failed installation seen from the state function. *)
Lemma operation_error_is_reported_witness :
  exists r w2,
    installed "nosuch" "jailmode" (Demo.boot []) = (Return r, w2)
    /\ result r = false
    /\ comment r = "Problem encountered installing package(s): error: snap not found".
Proof.
  destruct (operation_error_is_reported Present (Demo.boot []) "nosuch" "jailmode")
    as [_ Hrep].
  destruct (Hrep (Single (VStr "")) (after_list_pkgs true (Demo.boot []))
              "Problem encountered installing package(s)"
              (Some (mkInfo (Some ["error: snap not found"]) (Some ∅)))
              (snd (install "nosuch" "jailmode" (after_list_pkgs true (Demo.boot [])))))
    as (r & Hr & _ & Hres & _ & Hcom).
  - vm_compute; reflexivity.
  - reflexivity.
  - vm_compute; reflexivity.
  - exists r, (snd (install "nosuch" "jailmode" (after_list_pkgs true (Demo.boot [])))).
    split; [exact Hr|]. split; [exact Hres|]. rewrite Hcom. vm_compute. reflexivity.
Defined.

(** A name with a leading dash and a confinement that does not exist. *)
Lemma validation_before_any_call_witness :
  (Str.startswith "-" "-x" = true \/ "bogus" ∉ confinements)
  /\ install "-x" "bogus" (Demo.boot []) =
     (Raise (CommandExecutionError "Invalid snap package name " None), Demo.boot [])
  /\ remove "-x" "bogus" (Demo.boot []) =
     (Raise (CommandExecutionError "Invalid snap package name " None), Demo.boot []).
Proof.
  assert (Hbad : Str.startswith "-" "-x" = true \/ "bogus" ∉ confinements)
    by (left; reflexivity).
  split; [exact Hbad|].
  destruct (validation_before_any_call (Demo.boot []) "-x" "bogus" Hbad)
    as [[msg Hi] Hr].
  split; [reflexivity|]. apply Hr. reflexivity.
Defined.

(** C5 at an input where the statement of the spec fails: the result asked
    for in list shape is the cached object, so an entry the caller adds to it
    is an entry of the cache, and the next version query reports a snap that
    was never installed. *)
Lemma list_shape_result_is_the_cache :
  exists r w' w2,
    list_pkgs true no_kwargs (Demo.warm [("foo", "1")]) = (Return r, w')
    /\ context w' = Some r
    /\ update r (fun d => <["ghost" := VList ["6"]]> d) w' = (Return tt, w2)
    /\ cached w' = Some {["foo" := VList ["1"]]}
    /\ cached w2 = Some (<["ghost" := VList ["6"]]> {["foo" := VList ["1"]]})
    /\ fst (version ["ghost"] false no_kwargs w2) = Return (Single (VStr "6")).
Proof.
  eexists _, _, _.
  split; [vm_compute; reflexivity|].
  split; [vm_compute; reflexivity|].
  split; [vm_compute; reflexivity|].
  split; [vm_compute; reflexivity|].
  split; vm_compute; reflexivity.
Qed.

(** A read in string shape while an inventory is cached. *)
Lemma cache_hit_returns_witness :
  context (Demo.warm [("foo", "1")]) = Some 1
  /\ 1 < length (store (Demo.warm [("foo", "1")]))
  /\ exists r w',
       list_pkgs false no_kwargs (Demo.warm [("foo", "1")]) = (Return r, w')
       /\ obj w' r = {["foo" := VStr "1"]}
       /\ trace w' = trace (Demo.warm [("foo", "1")])
       /\ forall f, cached (snd (update r f w')) = cached (Demo.warm [("foo", "1")]).
Proof.
  assert (Hc : context (Demo.warm [("foo", "1")]) = Some 1) by reflexivity.
  assert (Hlt : 1 < length (store (Demo.warm [("foo", "1")]))) by (vm_compute; lia).
  split; [exact Hc|]. split; [exact Hlt|].
  destruct (cache_hit_returns (Demo.warm [("foo", "1")]) 1 false Hc Hlt)
    as (r & w' & Hl & Hobj & Htr & _ & _ & _ & Hf).
  exists r, w'. split; [exact Hl|]. split; [|split; [exact Htr|exact Hf]].
  rewrite Hobj. vm_compute. reflexivity.
Defined.

(** C6 at an input where the statement of the spec fails: [baz] was
    installed from outside after the last read, the cache still lists [foo]
    alone, and the installation of [foobar] reports [baz] as a change. *)
Lemma before_snapshot_is_the_stale_cache :
  cached Demo.stale = Some {["foo" := VList ["1"]]}
  /\ parse_listing (fst (cmd_run list_cmd (machine Demo.stale)))
     = <["baz" := VList ["3"]]> {["foo" := VList ["1"]]}
  /\ fst (install "foobar" "jailmode" Demo.stale)
     = Return (<["baz" := mkDiff (VStr "") (VStr "3")]>
                 {["foobar" := mkDiff (VStr "") (VStr "2")]}).
Proof.
  split; [vm_compute; reflexivity|].
  split; vm_compute; reflexivity.
Qed.

(** The snapshots of an installation on a machine with nothing cached. *)
Lemma snapshots_of_a_mutation_witness :
  accepted Present "foo" "classic"
  /\ changeset_of (fst (install "foo" "classic" (Demo.boot [("baz", "3")])))
     = Some {["foo" := mkDiff (VStr "") (VStr "1")]}
  /\ trace (snd (install "foo" "classic" (Demo.boot [("baz", "3")])))
     = [Run list_cmd; RunFull (install_cmd [] "foo" "classic"); Run list_cmd].
Proof.
  assert (Hacc : accepted Present "foo" "classic").
  { split; [reflexivity|]. unfold confinements. set_solver. }
  split; [exact Hacc|].
  pose proof (snapshots_of_a_mutation Present (Demo.boot [("baz", "3")]) "foo" "classic"
                Hacc) as Hthm.
  cbv zeta in Hthm. destruct Hthm as [Hcs Htr].
  rewrite install_operate, Hcs, Htr. split; vm_compute; reflexivity.
Defined.

(** C8 at an input where the module fails: the inventory lists [foo],
    [foobar] and [baz], and the query for [foo*] raises [NameError] where a
    dictionary of the two matches is expected.  The query for [foo] returns
    the single version. *)
Lemma version_wildcard_raises :
  fst (version ["foo*"] false no_kwargs
         (Demo.boot [("foo", "1"); ("foobar", "2"); ("baz", "3")]))
  = Raise (NameError "fnmatch")
  /\ fst (version ["foo"] false no_kwargs
            (Demo.boot [("foo", "1"); ("foobar", "2"); ("baz", "3")]))
     = Return (Single (VStr "1")).
Proof.
  split.
  - rewrite version_glob; [reflexivity|]. constructor. reflexivity.
  - rewrite version_single by reflexivity. vm_compute. reflexivity.
Qed.

(** C9 at an input where the statement of the spec fails: the row
    ["garbage "] has a single white-space-delimited field, yet it is stored,
    with an empty version, and nothing is logged. *)
Lemma one_field_row_is_stored :
  Itertools.split (fst (cmd_run list_cmd (machine Demo.trailing))) !! 1
  = Some "garbage "
  /\ whitespace_fields "garbage " = ["garbage"]
  /\ exists r w',
       list_pkgs true no_kwargs Demo.trailing = (Return r, w')
       /\ obj w' r = <["garbage" := VList [""]]> {["foo" := VList ["1.0"]]}
       /\ logged w' = [].
Proof.
  split; [reflexivity|]. split; [reflexivity|]. eexists _, _.
  split; [vm_compute; reflexivity|].
  split; vm_compute; reflexivity.
Qed.

(** A listing with a row of one field between two rows of two fields, and
    a listing whose row is held apart by other white space than spaces. *)
Lemma listing_skips_malformed_rows_witness :
  context Demo.garbled = None
  /\ (exists r w',
        list_pkgs true no_kwargs Demo.garbled = (Return r, w')
        /\ logged w'
           = ["Problem parsing snap list: Unexpected formatting in line: 'garbage'"]
        /\ (exists vs, "1.0" ∈ vs /\ obj w' r !! "foo" = Some (VList vs))
        /\ (exists vs, "2.0" ∈ vs /\ obj w' r !! "bar" = Some (VList vs)))
  /\ context Demo.separated = None
  /\ (exists r w',
        list_pkgs true no_kwargs Demo.separated = (Return r, w')
        /\ logged w' = []
        /\ (exists vs, "1.0" ∈ vs /\ obj w' r !! "foo" = Some (VList vs))).
Proof.
  split; [reflexivity|]. split; [|split; [reflexivity|]].
  - pose proof (listing_skips_malformed_rows Demo.garbled true eq_refl) as Hthm.
    cbv zeta in Hthm. destruct Hthm as (r & w' & Hl & Hlog & _ & Htok & _).
    exists r, w'. split; [exact Hl|].
    split; [|split].
    + rewrite Hlog. vm_compute. reflexivity.
    + apply (Htok 1 "foo  1.0  7" "foo" "1.0" ["7"]);
        [reflexivity|split; [lia|discriminate]|reflexivity|reflexivity].
    + apply (Htok 3 "bar 2.0 9" "bar" "2.0" ["9"]);
        [reflexivity|split; [lia|discriminate]|reflexivity|reflexivity].
  - pose proof (listing_skips_malformed_rows Demo.separated true eq_refl) as Hthm.
    cbv zeta in Hthm. destruct Hthm as (r & w' & Hl & Hlog & _ & Htok & _).
    exists r, w'. split; [exact Hl|].
    split.
    + rewrite Hlog. vm_compute. reflexivity.
    + apply (Htok 1 ("foo" +:+ String "031" ("1.0" +:+ String "160" "7"))
                  "foo" "1.0" ["7"]);
        [reflexivity|split; [lia|discriminate]|reflexivity|reflexivity].
Defined.

(** A second [removed] of a snap that is not installed. *)
Lemma nothing_to_do_twice_witness :
  removed "foo" (snd (removed "foo" (Demo.boot [])))
  = (Return (satisfied "foo"), snd (removed "foo" (Demo.boot []))).
Proof.
  eapply (nothing_to_do_twice Absent (Demo.boot []) "foo" "jailmode").
  - vm_compute; reflexivity.
  - reflexivity.
  - reflexivity.
Defined.

(** The version of an installed snap and of one that is not installed. *)
Lemma version_of_one_name_witness :
  Str.contains "*" "foo" = false
  /\ fst (version ["foo"] false no_kwargs (Demo.boot [("foo", "1")]))
     = Return (Single (VStr "1"))
  /\ fst (version ["foo"] false no_kwargs (Demo.boot []))
     = Return (Single (VStr "")).
Proof.
  split; [reflexivity|]. split.
  - rewrite (version_of_one_name (Demo.boot [("foo", "1")]) "foo" false eq_refl).
    vm_compute. reflexivity.
  - rewrite (version_of_one_name (Demo.boot []) "foo" false eq_refl).
    vm_compute. reflexivity.
Defined.

(** ** White space in the fields of a row *)

Lemma sub_ws_chars (s : string) :
  forall b, all_chars (fun a => negb (Str.is_space a) || Ascii.eqb a " ") (Str.sub_ws b s) = true.
Proof.
  induction s as [|a s IH]; intros b; simpl; [done|].
  destruct (Str.is_space a) eqn:Ha.
  - destruct b; simpl; [apply IH|]. rewrite IH. done.
  - simpl. rewrite Ha, IH. done.
Qed.

Lemma split_nonempty (sep : ascii) (s : string) : Str.split sep s <> [].
Proof.
  destruct s as [|a s]; simpl; [done|].
  destruct (Ascii.eqb a sep); [done|]. by destruct (Str.split sep s).
Qed.

Lemma split_chars (p : ascii -> bool) (sep : ascii) (s : string) :
  all_chars p s = true ->
  Forall (fun f => all_chars (fun a => p a && negb (Ascii.eqb a sep)) f = true)
         (Str.split sep s).
Proof.
  induction s as [|a s IH]; simpl; intros Hs.
  - by repeat constructor.
  - apply andb_true_iff in Hs as [Ha Hs]. specialize (IH Hs).
    destruct (Ascii.eqb a sep) eqn:Hsep.
    + by constructor.
    + destruct (Str.split sep s) as [|f fs]; simpl.
      * repeat constructor. simpl. by rewrite Ha, Hsep.
      * inversion IH; subst. constructor; [|done]. simpl. by rewrite Ha, Hsep.
Qed.

Lemma all_chars_no_space (f : string) :
  all_chars (fun a => (negb (Str.is_space a) || Ascii.eqb a " ") && negb (Ascii.eqb a " ")) f = true ->
  no_space f = true.
Proof.
  induction f as [|a f IH]; simpl; [done|]. intros Hf.
  apply andb_true_iff in Hf as [Ha Hf]. rewrite (IH Hf).
  destruct (Str.is_space a), (Ascii.eqb a " "); done.
Qed.

Lemma fields_no_space (line : string) :
  Forall (fun f => no_space f = true) (fields line).
Proof.
  unfold fields. apply Forall_take.
  eapply Forall_impl; [apply split_chars, sub_ws_chars|].
  intros f. apply all_chars_no_space.
Qed.

Lemma fields_leading_space (a : ascii) (rest : string) :
  Str.is_space a = true -> exists v, fields (String a rest) = [""; v].
Proof.
  intros Ha. unfold fields. simpl. rewrite Ha. simpl.
  destruct (Str.split " " (Str.sub_ws true rest)) as [|f fs] eqn:Hs.
  - by apply split_nonempty in Hs.
  - by exists f.
Qed.


Lemma add_pkg_lists_origin (d : Inventory) (n v n' v' : string) :
  lists_version (PkgResource.add_pkg d n v) n' v' ->
  lists_version d n' v' \/ (n' = n /\ v' = v).
Proof.
  unfold PkgResource.add_pkg, lists_version.
  destruct (d !! n) as [[s|l]|] eqn:Hn; [by left| |]; intros (vs & Hvs & Hin).
  - destruct (decide (n = n')) as [->|Hne].
    + rewrite lookup_insert_eq in Hvs. injection Hvs as <-.
      apply elem_of_app in Hin as [Hin|Hin]; [left; by exists l|].
      right. by apply list_elem_of_singleton in Hin.
    + rewrite lookup_insert_ne in Hvs by done. left. by exists vs.
  - destruct (decide (n = n')) as [->|Hne].
    + rewrite lookup_insert_eq in Hvs. injection Hvs as <-.
      right. by apply list_elem_of_singleton in Hin.
    + rewrite lookup_insert_ne in Hvs by done. left. by exists vs.
Qed.

Lemma read_lines_lists_origin (lines : list string) :
  forall i d n v,
  lists_version (read_lines i lines d) n v ->
  lists_version d n v \/
  exists j line, lines !! j = Some line /\ is_row (i + j) line /\ fields line = [n; v].
Proof.
  induction lines as [|l rest IH]; intros i d n v Hv; simpl in *; [by left|].
  destruct (IH _ _ _ _ Hv) as [Hd|(j & line & Hj & Hrow & Hf)].
  - unfold read_line in Hd.
    destruct (Nat.eqb i 0 || String.eqb l "") eqn:Htest; [by left|].
    destruct (take 2 _) as [|a [|b [|c t]]] eqn:Hf; try by left.
    destruct (add_pkg_lists_origin _ _ _ _ _ Hd) as [?|[-> ->]]; [by left|].
    right. exists 0, l. rewrite Nat.add_0_r. split; [done|]. split; [|done].
    apply orb_false_elim in Htest as [Hi Hl]. split.
    + by apply Nat.eqb_neq.
    + by apply String.eqb_neq.
  - right. exists (S j), line. split; [done|]. split; [|done].
    by replace (i + S j) with (S i + j) by lia.
Qed.

Lemma parse_listing_origin (out : string) (n v : string) :
  lists_version (parse_listing out) n v ->
  exists j line,
    Itertools.split out !! j = Some line /\ is_row j line /\ fields line = [n; v].
Proof.
  intros (vs & Hvs & Hin).
  unfold parse_listing, PkgResource.sort_pkglist in Hvs. rewrite lookup_fmap in Hvs.
  destruct (read_lines 0 (Itertools.split out) ∅ !! n) as [x|] eqn:Hx; [|done].
  assert (Hall : all_lists (read_lines 0 (Itertools.split out) ∅)).
  { apply read_lines_all_lists. intros k y. by rewrite lookup_empty. }
  destruct (Hall _ _ Hx) as [l ->]. simpl in Hvs. injection Hvs as <-.
  rewrite sorted_set_elem in Hin.
  destruct (read_lines_lists_origin (Itertools.split out) 0 ∅ n v)
    as [(vs' & Hd & _)|Hrow]; [by exists l| |done].
  by rewrite lookup_empty in Hd.
Qed.

Lemma parse_listing_all_lists (out : string) : all_lists (parse_listing out).
Proof.
  intros k x. unfold parse_listing, PkgResource.sort_pkglist. rewrite lookup_fmap.
  destruct (read_lines 0 (Itertools.split out) ∅ !! k) as [[s|l]|]; simpl;
    intros [= <-]; by eexists.
Qed.

Lemma no_space_app (s t : string) :
  no_space (s +:+ t) = no_space s && no_space t.
Proof.
  induction s as [|a s IH]; simpl; [done|]. by rewrite IH, andb_assoc.
Qed.

Lemma no_space_join (l : list string) :
  Forall (fun v => no_space v = true) l -> no_space (Str.join "," l) = true.
Proof.
  unfold Str.join. induction l as [|v [|v' l] IH]; simpl; intros Hl; [done| |].
  - by inversion Hl.
  - inversion Hl as [|? ? Hv Hrest]; subst.
    change (no_space (v +:+ "," +:+ String.concat "," (v' :: l)) = true).
    by rewrite !no_space_app, Hv, (IH Hrest).
Qed.

Lemma parse_problem_leading_space (a : ascii) (rest l : string) :
  Str.is_space a = true -> no_space l = true ->
  parse_problem l <> parse_problem (String a rest).
Proof.
  intros Ha Hl Heq. unfold parse_problem in Heq.
  rewrite (sub_ws_no_space l false Hl) in Heq.
  apply (inj (String.app _)) in Heq. simpl in Heq. rewrite Ha in Heq.
  destruct l as [|c l]; [done|]. simpl in Heq. injection Heq as -> _.
  done.
Qed.

Section ListingProperties.
Context {E : Type} `{Host E}.

(** Nothing is made up: when nothing is cached, every version that
    [list_pkgs] lists for a name stands next to that name in a row of the
    listing, as its first two fields. *)
Theorem inventory_entries_come_from_rows (w : World E) :
  context w = None ->
  let lines := Itertools.split (fst (cmd_run list_cmd (machine w))) in
  exists r w',
    list_pkgs true no_kwargs w = (Return r, w')
    /\ forall n vs v, obj w' r !! n = Some (VList vs) -> v ∈ vs ->
         exists i line, lines !! i = Some line /\ is_row i line /\ fields line = [n; v].
Proof.
  intros Hc. simpl. eexists _, _. rewrite list_pkgs_eq. split; [done|].
  rewrite obj_after_list_pkgs. simpl. intros n vs v Hn Hv.
  apply parse_listing_origin. exists vs. split; [|done].
  unfold seen, cached in Hn. by rewrite Hc in Hn.
Qed.

(** When nothing is cached, no name and no version of the inventory that
    [list_pkgs] returns holds a white-space character, in list shape and in
    string shape. *)
Theorem inventory_tokens_have_no_white_space (w : World E) (val : bool) :
  context w = None ->
  exists r w',
    list_pkgs val no_kwargs w = (Return r, w')
    /\ (forall n, is_Some (obj w' r !! n) -> no_space n = true)
    /\ (forall n x, obj w' r !! n = Some x ->
          match x with
          | VList vs => Forall (fun v => no_space v = true) vs
          | VStr s => no_space s = true
          end).
Proof.
  intros Hc. eexists _, _. rewrite list_pkgs_eq. split; [done|].
  rewrite obj_after_list_pkgs, seen_uncached by done.
  assert (Hvs : forall n vs,
            parse_listing (fst (cmd_run list_cmd (machine w))) !! n = Some (VList vs) ->
            Forall (fun v => no_space v = true) vs).
  { intros n vs Hn. apply Forall_forall. intros v Hv.
    destruct (parse_listing_origin (fst (cmd_run list_cmd (machine w))) n v)
      as (j & line & _ & _ & Hf); [by exists vs|].
    pose proof (fields_no_space line) as Hall. rewrite Hf in Hall.
    inversion Hall as [|? ? _ Hall']. by inversion Hall'. }
  split.
  - intros n Hn. apply shaped_is_Some in Hn.
    destruct (parse_listing_keys (fst (cmd_run list_cmd (machine w))) n Hn)
      as (j & line & v & _ & _ & Hf).
    pose proof (fields_no_space line) as Hall. rewrite Hf in Hall.
    by inversion Hall.
  - intros n x Hn. destruct val; simpl in Hn.
    + destruct (parse_listing_all_lists _ _ _ Hn) as [vs ->]. by apply (Hvs n).
    + unfold PkgResource.stringify in Hn. rewrite lookup_fmap in Hn.
      destruct (parse_listing _ !! n) as [y|] eqn:Hy; [|done].
      injection Hn as <-.
      destruct (parse_listing_all_lists _ _ _ Hy) as [vs ->]. simpl.
      apply no_space_join. by apply (Hvs n).
Qed.

(** When nothing is cached, a row that begins with white space is neither
    skipped nor logged: its first field is the empty string, so the
    inventory that [list_pkgs] returns lists its second field under the
    empty name, and the message for this row is not among those that the
    call adds to the log. *)
Theorem row_with_leading_space_has_no_name (w : World E) (val : bool)
    (i : nat) (a : ascii) (rest : string) :
  context w = None ->
  Itertools.split (fst (cmd_run list_cmd (machine w))) !! i = Some (String a rest) ->
  i <> 0 ->
  Str.is_space a = true ->
  exists r w' v vs added,
    list_pkgs val no_kwargs w = (Return r, w')
    /\ fields (String a rest) = [""; v]
    /\ v ∈ vs
    /\ obj w' r !! "" = Some (shaped_value val (VList vs))
    /\ logged w' = logged w ++ added
    /\ parse_problem (String a rest) ∉ added.
Proof.
  intros Hc Hi Hi0 Ha.
  destruct (fields_leading_space a rest Ha) as [v Hf].
  destruct (parse_listing_row (fst (cmd_run list_cmd (machine w))) i (String a rest)
              "" v Hi) as (vs & Hvs & Hin); [done|done|].
  eexists _, _, v, vs, _. rewrite list_pkgs_eq. split; [done|].
  rewrite obj_after_list_pkgs, logged_after_list_pkgs, seen_uncached by done.
  split; [done|]. split; [done|]. split; [by apply shaped_lookup|].
  split; [done|].
  intros Hin'. apply list_elem_of_fmap in Hin' as (l & Heq & Hl).
  apply unreadable_rows_elem in Hl as (j & _ & _ & Hs).
  by apply (parse_problem_leading_space a rest l Ha Hs).
Qed.

End ListingProperties.


(** ** More about [list_pkgs] and [version] *)

Section VersionProperties.
Context {E : Type} `{Host E}.

Lemma requested_lookup (d : Inventory) (names : list string) :
  forall (r : Inventory) (k : string),
  foldl (fun r n => <[n := default (VList []) (d !! n)]> r) r names !! k =
  if bool_decide (k ∈ names) then Some (default (VList []) (d !! k)) else r !! k.
Proof.
  induction names as [|n rest IH]; intros r k; simpl; [done|].
  rewrite IH. destruct (bool_decide (k ∈ rest)) eqn:Hrest.
  - rewrite bool_decide_eq_true_2; [done|]. apply bool_decide_eq_true in Hrest.
    by apply list_elem_of_further.
  - apply bool_decide_eq_false in Hrest.
    destruct (decide (k = n)) as [->|Hne].
    + rewrite lookup_insert_eq. rewrite bool_decide_eq_true_2; [done|].
      apply list_elem_of_here.
    + rewrite lookup_insert_ne by done.
      rewrite bool_decide_eq_false_2; [done|].
      intros Hk. apply elem_of_cons in Hk as [?|?]; done.
Qed.

Lemma _resource_version_loop_plain (pkgs : nat) (names : list string) :
  forall (acc : Inventory * bool) (w : World E),
  Forall (fun n => Str.contains "*" n = false) names ->
  _resource_version_loop pkgs names acc w =
  (Return (foldl (fun r n => <[n := default (VList []) (obj w pkgs !! n)]> r)
                 (fst acc) names, snd acc), w).
Proof.
  induction names as [|n rest IH]; intros [r g] w Hall; simpl.
  - done.
  - inversion Hall as [|? ? Hn Hrest]; subst. py_unfold. rewrite Hn.
    by rewrite IH.
Qed.

(** Without a name, [version] returns an empty dictionary and leaves the
    world as it is: nothing is listed, nothing is cached. *)
Theorem version_without_names (w : World E) (val : bool) (kwargs : Kwargs) :
  version [] val kwargs w = (Return (Many ∅), w).
Proof.
  unfold version, _resource_version. py_unfold. simpl.
  destruct val; simpl; [done|].
  unfold PkgResource.stringify. by rewrite fmap_empty.
Qed.

(** Several names without a wildcard: [version] returns a dictionary with
    exactly the requested names, each with its version in the shape asked
    for, empty for a name that is not installed.  When all the names are one
    and the same name, it returns the single value instead. *)
Theorem version_of_names (w : World E) (names : list string) (val : bool) :
  names <> [] ->
  Forall (fun n => Str.contains "*" n = false) names ->
  exists m : Inventory,
    (forall k, m !! k =
               if bool_decide (k ∈ names)
               then Some (shaped_value val (default (VList []) (seen w !! k)))
               else None)
    /\ (forall n, (forall k, k ∈ names -> k = n) ->
          fst (version names val no_kwargs w) =
          Return (Single (shaped_value val (default (VList []) (seen w !! n)))))
    /\ ((exists a b, a ∈ names /\ b ∈ names /\ a <> b) ->
          fst (version names val no_kwargs w) = Return (Many m)).
Proof.
  intros Hne Hall.
  set (raw := foldl (fun (r : Inventory) n => <[n := default (VList []) (seen w !! n)]> r)
                    (∅ : Inventory) names).
  set (m := if val then raw else PkgResource.stringify raw).
  assert (Hm : forall k, m !! k =
               if bool_decide (k ∈ names)
               then Some (shaped_value val (default (VList []) (seen w !! k)))
               else None).
  { intros k. unfold m, raw. destruct val; simpl.
    - rewrite requested_lookup. by rewrite lookup_empty.
    - unfold PkgResource.stringify. rewrite lookup_fmap, requested_lookup.
      rewrite lookup_empty. by destruct (bool_decide (k ∈ names)). }
  assert (Hv : version names val no_kwargs w =
               ((if Nat.eqb (size m) 1
                 then match map_to_list m with
                      | (_, v) :: _ => Return (Single v)
                      | [] => Return (Single (VStr ""))
                      end
                 else Return (Many m)), after_list_pkgs true w)).
  { unfold version, _resource_version.
    destruct names as [|n0 rest]; [done|].
    unfold mbind, Py_bind at 1. unfold mbind, Py_bind at 1.
    rewrite list_pkgs_eq, _resource_version_loop_plain by done.
    rewrite obj_after_list_pkgs. simpl. fold raw.
    change (if val then _ else _) with m at 1.
    change (if val then _ else _) with m at 1.
    change (if val then _ else _) with m at 1.
    rewrite andb_true_r.
    destruct (Nat.eqb (size m) 1); [|done].
    by destruct (map_to_list m) as [|[k v] l]. }
  exists m. split; [exact Hm|]. split.
  - intros n Hsame.
    assert (Hin : n ∈ names).
    { destruct names as [|n0 rest]; [done|].
      rewrite <- (Hsame n0); set_solver. }
    assert (Hsingle : m = {[n := shaped_value val (default (VList []) (seen w !! n))]}).
    { apply map_eq. intros k. rewrite Hm.
      destruct (decide (k = n)) as [->|Hk].
      - rewrite lookup_singleton_eq. by rewrite bool_decide_eq_true_2.
      - rewrite lookup_singleton_ne by done.
        rewrite bool_decide_eq_false_2; [done|]. intros Hk'. by apply Hsame in Hk'. }
    rewrite Hv, Hsingle. simpl.
    by rewrite map_size_singleton, map_to_list_singleton.
  - intros (a & b & Ha & Hb & Hab).
    rewrite Hv. simpl.
    destruct (Nat.eqb (size m) 1) eqn:Hsize; [|done].
    exfalso. apply Nat.eqb_eq in Hsize.
    rewrite <- size_dom in Hsize.
    apply size_1_elem_of in Hsize as [x Hx].
    assert (Hda : a ∈ dom m).
    { apply elem_of_dom. rewrite Hm. by rewrite bool_decide_eq_true_2. }
    assert (Hdb : b ∈ dom m).
    { apply elem_of_dom. rewrite Hm. by rewrite bool_decide_eq_true_2. }
    rewrite Hx in Hda, Hdb. set_solver.
Qed.

(** With the keyword [removed] or [purge_desired], [list_pkgs] returns a
    new empty dictionary, executes no command and leaves the cache as it is;
    [version] of a name then reports it as not installed, whatever is
    installed or cached. *)
Theorem untracked_categories_are_empty (w : World E) (val : bool) (kwargs : Kwargs)
    (pkg : string) :
  removed_kw kwargs || purge_desired_kw kwargs = true ->
  (exists r w',
     list_pkgs val kwargs w = (Return r, w')
     /\ obj w' r = ∅
     /\ trace w' = trace w /\ machine w' = machine w /\ cached w' = cached w)
  /\ (Str.contains "*" pkg = false ->
      fst (version [pkg] val kwargs w)
      = Return (Single (if val then VList [] else VStr ""))).
Proof.
  intros Hkw.
  assert (Hl : forall v, list_pkgs v kwargs w =
               (Return (length (store w)),
                mkWorld (context w) (store w ++ [∅]) (machine w) (trace w) (logged w))).
  { intros v. unfold list_pkgs. by rewrite Hkw. }
  split.
  - eexists _, _. split; [apply Hl|]. rewrite obj_alloc.
    repeat split; try done.
    unfold cached, obj; simpl. destruct (context w) as [c|]; [|done]. simpl. f_equal.
    destruct (decide (c < length (store w))) as [Hlt|Hge].
    + by rewrite lookup_app_l.
    + rewrite lookup_app_r by lia. rewrite (lookup_ge_None_2 (store w)) by lia.
      by destruct (c - length (store w)) as [|[|k]].
  - intros Hn. unfold version, _resource_version.
    unfold mbind, Py_bind at 1. unfold mbind, Py_bind at 1.
    rewrite Hl. simpl. rewrite Hn. py_unfold. simpl. rewrite obj_alloc.
    rewrite lookup_empty. simpl.
    destruct val; simpl.
    + by rewrite insert_empty, map_size_singleton, map_to_list_singleton.
    + unfold PkgResource.stringify.
      by rewrite insert_empty, map_fmap_singleton, map_size_singleton,
        map_to_list_singleton.
Qed.

(** Two reads in a row: the second one executes no command, and both show
    the same inventory, each in the shape it was asked for. *)
Theorem second_read_is_served_from_cache (w : World E) (v1 v2 : bool) :
  wf w ->
  exists r1 w1 r2 w2,
    list_pkgs v1 no_kwargs w = (Return r1, w1)
    /\ list_pkgs v2 no_kwargs w1 = (Return r2, w2)
    /\ obj w1 r1 = shaped v1 (seen w)
    /\ obj w2 r2 = shaped v2 (seen w)
    /\ trace w2 = trace w1
    /\ machine w2 = machine w1.
Proof.
  intros Hwf. eexists _, _, _, _. rewrite !list_pkgs_eq.
  split; [done|]. split; [done|].
  rewrite !obj_after_list_pkgs, !trace_after_list_pkgs, !machine_after_list_pkgs.
  pose proof (cached_after_list_pkgs w v1 Hwf) as Hcached.
  destruct (context_after_list_pkgs w v1) as [c Hc].
  split; [done|]. split; [|split].
  - unfold seen at 1. by rewrite Hcached.
  - unfold trace_read at 2. rewrite Hc. by rewrite app_nil_r.
  - unfold machine_read at 1. by rewrite Hc, machine_after_list_pkgs.
Qed.

End VersionProperties.


(** ** More about the operations and the states *)

Section OperationProperties.
Context {E : Type} `{Host E}.

Lemma accepted_dec (d : Desired) (pkg confinement : string) :
  accepted d pkg confinement \/ ~ accepted d pkg confinement.
Proof.
  unfold accepted. destruct (Str.startswith "-" pkg); [right; by intros [? _]|].
  destruct d; [|by left].
  destruct (decide (confinement ∈ confinements)); [by left|right; by intros [_ ?]].
Qed.

Lemma _resource_version_loop_world (pkgs : nat) (names : list string) :
  forall (acc : Inventory * bool) (w : World E),
  snd (_resource_version_loop pkgs names acc w) = w.
Proof.
  induction names as [|n rest IH]; intros acc w; simpl; [done|].
  py_unfold. unfold fnmatch_filter, raise.
  destruct (Str.contains "*" n); [done|]. apply IH.
Qed.

(** The world that [version] leaves: the one its read leaves. *)
Lemma version_world (w : World E) (names : list string) (val : bool) :
  snd (version names val no_kwargs w) =
  match names with
  | [] => w
  | _ => after_list_pkgs true w
  end.
Proof.
  unfold version, _resource_version.
  destruct names as [|n rest].
  { py_unfold. simpl. by destruct (Nat.eqb _ 1 && true); [destruct (map_to_list _) as [|[??]?]|]. }
  unfold mbind, Py_bind at 1. unfold mbind, Py_bind at 1. rewrite list_pkgs_eq.
  pose proof (_resource_version_loop_world (ref_list_pkgs true w) (n :: rest) (∅, false)
                (after_list_pkgs true w)) as Hw.
  destruct (_resource_version_loop _ _ _ _) as [[acc|e] w'']; simpl in Hw; subst w'';
    [|done].
  py_unfold.
  by destruct (Nat.eqb _ 1 && _); [destruct (map_to_list _) as [|[??]?]|].
Qed.

(** After an operation whose arguments are accepted, the cache holds the
    inventory listed after the command, whether the command failed or not,
    and a version query that follows executes no command. *)
Theorem cache_is_fresh_after_operation (d : Desired) (w : World E)
    (pkg confinement : string) (names : list string) (val : bool) :
  accepted d pkg confinement ->
  let cmd := operate_cmd d (prefix_in w) pkg confinement in
  let m1 := snd (cmd_run_all cmd (machine_read w)) in
  let w' := snd (operate d pkg confinement w) in
  cached w' = Some (parse_listing (fst (cmd_run list_cmd m1)))
  /\ trace (snd (version names val no_kwargs w')) = trace w'.
Proof.
  intros Hacc. simpl. split.
  - rewrite operate_eq by done. simpl.
    rewrite cached_after_list_pkgs by (by intros c).
    by rewrite seen_after_command, machine_after_list_pkgs.
  - rewrite version_world. destruct names as [|n rest]; [done|].
    rewrite trace_after_list_pkgs.
    assert (Hctx : is_Some (context (snd (operate d pkg confinement w)))).
    { rewrite operate_eq by done. apply context_after_list_pkgs. }
    destruct Hctx as [c Hc]. unfold trace_read. rewrite Hc. by rewrite app_nil_r.
Qed.

(** When the version query finds that the operation is needed and the
    operation returns a change set, the state function returns a report with
    result true, an empty comment, and the change set under the key
    ['installed'] of the changes, for [removed] as for [installed]. *)
Theorem converged_report (d : Desired) (w : World E) (pkg confinement : string)
    (v : VersionResult) (w1 : World E) (cs : ChangeSet) (w2 : World E) :
  version [pkg] false no_kwargs w = (Return v, w1) ->
  truthy v = match d with Present => false | Absent => true end ->
  operate d pkg confinement w1 = (Return cs, w2) ->
  ensure d pkg confinement w =
  (Return (mkReport pkg true {["installed" := CV_set cs]} ""), w2).
Proof.
  intros Hv Hneed Hop.
  destruct (Str.contains "*" pkg) eqn:Hn.
  { rewrite version_glob in Hv by (by constructor). done. }
  rewrite version_single in Hv by done. injection Hv as <- <-.
  simpl in Hneed.
  destruct d; simpl in *.
  - rewrite installed_eq by done. simpl. by rewrite Hneed, Hop.
  - change (remove pkg confinement) with (remove pkg "jailmode") in Hop.
    rewrite removed_eq by done. simpl.
    apply negb_true_iff in Hneed. by rewrite Hneed, Hop.
Qed.

(** When the inventory read by the version query already shows the desired
    state, the state function returns the report of a state with nothing to
    do, whatever the confinement, valid or not, and executes no command but
    the listing that the query may need. *)
Theorem already_satisfied (d : Desired) (w : World E) (pkg confinement : string) :
  Str.contains "*" pkg = false ->
  match d with
  | Present => PkgResource.join_value (default (VList []) (seen w !! pkg)) <> ""
  | Absent => PkgResource.join_value (default (VList []) (seen w !! pkg)) = ""
  end ->
  ensure d pkg confinement w = (Return (satisfied pkg), after_list_pkgs true w)
  /\ trace (after_list_pkgs true w) = trace w ++ trace_read w.
Proof.
  intros Hn Hs. split; [|apply trace_after_list_pkgs].
  destruct d; simpl.
  - rewrite installed_eq by done. simpl. by apply String.eqb_neq in Hs as ->.
  - rewrite removed_eq by done. simpl. by rewrite Hs, String.eqb_refl.
Qed.

(** When the operation is needed and its arguments are not accepted, the
    state function reports the failure: result false, no changes, and the
    fixed sentence followed by the message of the validation error.  No
    command is executed but the listing that the version query may need. *)
Theorem invalid_arguments_are_reported (d : Desired) (w : World E)
    (pkg confinement : string) :
  Str.contains "*" pkg = false ->
  match d with
  | Present => PkgResource.join_value (default (VList []) (seen w !! pkg)) = ""
  | Absent => PkgResource.join_value (default (VList []) (seen w !! pkg)) <> ""
  end ->
  ~ accepted d pkg confinement ->
  exists msg,
    (msg = "Invalid snap package name " \/
     msg = "Invalid confinement mode. Options are jailmode, classic and devmode")
    /\ ensure d pkg confinement w =
       (Return (mkReport pkg false ∅
                  ("An error was encountered while " +:+ operation_name d
                     +:+ " package(s): " +:+ msg)),
        after_list_pkgs true w)
    /\ trace (after_list_pkgs true w) = trace w ++ trace_read w.
Proof.
  intros Hn Hs Hrej.
  destruct (operate_rejected d (after_list_pkgs true w) pkg
              (match d with Present => confinement | Absent => "jailmode" end))
    as (msg & Hop & Hmsg).
  { destruct d; [done|]. unfold accepted in *. tauto. }
  exists msg. split; [done|]. split; [|apply trace_after_list_pkgs].
  destruct d; simpl in *.
  - rewrite installed_eq by done. simpl. rewrite Hs. simpl. by rewrite Hop.
  - rewrite removed_eq by done. simpl.
    apply String.eqb_neq in Hs. rewrite Hs. by rewrite Hop.
Qed.

(** A name with a wildcard: the state function ends in [NameError]; the
    clause that catches [CommandExecutionError] does not catch it.  No
    command is executed but the listing that the version query may need. *)
Theorem state_of_wildcard_name_raises (d : Desired) (w : World E)
    (pkg confinement : string) :
  Str.contains "*" pkg = true ->
  ensure d pkg confinement w = (Raise (NameError "fnmatch"), after_list_pkgs true w)
  /\ trace (after_list_pkgs true w) = trace w ++ trace_read w.
Proof.
  intros Hn. split; [by apply ensure_glob|apply trace_after_list_pkgs].
Qed.

(** A state function executes at most one mutating command, never retries
    it, and follows it by one listing: after the listing that the version
    query may need, it executes either nothing or the command of its
    operation and a listing. *)
Theorem state_runs_at_most_one_operation (d : Desired) (w : World E)
    (pkg confinement : string) :
  let w1 := after_list_pkgs true w in
  let cmd := operate_cmd d (prefix_in w1) pkg confinement in
  exists tail,
    trace (snd (ensure d pkg confinement w)) = trace w ++ trace_read w ++ tail
    /\ (tail = [] \/ tail = [RunFull cmd; Run list_cmd]).
Proof.
  simpl.
  assert (Hbase : trace (after_list_pkgs true w) = trace w ++ trace_read w ++ [])
    by (rewrite app_nil_r; apply trace_after_list_pkgs).
  destruct (Str.contains "*" pkg) eqn:Hn.
  { exists []. rewrite ensure_glob by done. split; [done|by left]. }
  set (conf' := match d with Present => confinement | Absent => "jailmode" end).
  set (test := match d with
               | Present => negb (String.eqb (PkgResource.join_value
                              (default (VList []) (seen w !! pkg))) "")
               | Absent => String.eqb (PkgResource.join_value
                              (default (VList []) (seen w !! pkg))) ""
               end).
  assert (Hens : ensure d pkg confinement w =
                 (if test
                  then (Return (satisfied pkg), after_list_pkgs true w)
                  else match operate d pkg conf' (after_list_pkgs true w) with
                       | (Return cs, w2) =>
                           (Return (mkReport pkg true {["installed" := CV_set cs]} ""), w2)
                       | (Raise (CommandExecutionError msg info), w2) =>
                           (Return (failed_report (operation_name d) (satisfied pkg)
                                      msg info), w2)
                       | (Raise e, w2) => (Raise e, w2)
                       end)).
  { unfold test. destruct d; simpl; [by rewrite installed_eq|by rewrite removed_eq]. }
  rewrite Hens. clear Hens.
  destruct test.
  { exists []. split; [done|by left]. }
  assert (Hcmd : operate_cmd d (prefix_in (after_list_pkgs true w)) pkg conf'
                 = operate_cmd d (prefix_in (after_list_pkgs true w)) pkg confinement)
    by (by destruct d).
  destruct (accepted_dec d pkg conf') as [Hacc|Hrej].
  - exists [RunFull (operate_cmd d (prefix_in (after_list_pkgs true w)) pkg confinement);
            Run list_cmd].
    split; [|by right].
    assert (Htr : trace (snd (operate d pkg conf' (after_list_pkgs true w))) =
                  trace w ++ trace_read w ++
                  [RunFull (operate_cmd d (prefix_in (after_list_pkgs true w)) pkg
                              confinement); Run list_cmd]).
    { rewrite operate_eq by done. simpl.
      rewrite ?trace_after_list_pkgs. simpl. rewrite ?trace_after_list_pkgs.
      change (trace_read (after_command _ _)) with [Run list_cmd].
      destruct (context_after_list_pkgs w true) as [c Hc].
      unfold trace_read at 2. rewrite Hc, Hcmd. simpl.
      by rewrite app_nil_r, <- !app_assoc. }
    by destruct (operate d pkg conf' (after_list_pkgs true w))
      as [[cs|[msg info|x]] w2].
  - destruct (operate_rejected d (after_list_pkgs true w) pkg conf' Hrej)
      as (msg & Hop & _).
    rewrite Hop. exists []. split; [done|by left].
Qed.

End OperationProperties.


(** ** More runs on the small machine *)

(** The rows behind the inventory of a listing with a bad row. *)
Lemma inventory_entries_come_from_rows_witness :
  context Demo.garbled = None
  /\ exists r w',
       list_pkgs true no_kwargs Demo.garbled = (Return r, w')
       /\ forall n vs v, obj w' r !! n = Some (VList vs) -> v ∈ vs ->
            exists i line,
              Itertools.split (machine Demo.garbled) !! i = Some line
              /\ is_row i line /\ fields line = [n; v].
Proof.
  split; [reflexivity|].
  exact (inventory_entries_come_from_rows Demo.garbled eq_refl).
Defined.

(** The names and versions of a listing with a bad row, in string shape. *)
Lemma inventory_tokens_have_no_white_space_witness :
  context Demo.garbled = None
  /\ exists r w',
       list_pkgs false no_kwargs Demo.garbled = (Return r, w')
       /\ (forall n, is_Some (obj w' r !! n) -> no_space n = true)
       /\ (forall n s, obj w' r !! n = Some (VStr s) -> no_space s = true).
Proof.
  split; [reflexivity|].
  destruct (inventory_tokens_have_no_white_space Demo.garbled false eq_refl)
    as (r & w' & Hl & Hkeys & Hvals).
  exists r, w'. split; [exact Hl|]. split; [exact Hkeys|].
  intros n s Hn. exact (Hvals n (VStr s) Hn).
Defined.

(** A listing whose only row is indented. *)
Lemma row_with_leading_space_has_no_name_witness :
  context Demo.indented = None
  /\ Itertools.split (fst (cmd_run list_cmd (machine Demo.indented))) !! 1
     = Some (String " " "foo 1.0")
  /\ exists r w' vs,
       list_pkgs true no_kwargs Demo.indented = (Return r, w')
       /\ "foo" ∈ vs
       /\ obj w' r !! "" = Some (VList vs)
       /\ parse_problem " foo 1.0" ∉ logged w'.
Proof.
  split; [reflexivity|]. split; [reflexivity|].
  destruct (row_with_leading_space_has_no_name Demo.indented true 1 " " "foo 1.0")
    as (r & w' & v & vs & added & Hl & Hf & Hin & Hobj & Hlog & Hno);
    [reflexivity|reflexivity|lia|reflexivity|].
  exists r, w', vs. split; [exact Hl|].
  assert (Hv : v = "foo") by (vm_compute in Hf; congruence).
  subst v. split; [exact Hin|]. split; [exact Hobj|].
  rewrite Hlog. exact Hno.
Defined.

(** Two names, one installed and one not. *)
Lemma version_of_names_witness :
  ["foo"; "nosuch"] <> []
  /\ Forall (fun n => Str.contains "*" n = false) ["foo"; "nosuch"]
  /\ exists m : Inventory,
       fst (version ["foo"; "nosuch"] false no_kwargs (Demo.boot [("foo", "1")]))
       = Return (Many m)
       /\ m !! "foo" = Some (VStr "1") /\ m !! "nosuch" = Some (VStr "").
Proof.
  assert (Hall : Forall (fun n => Str.contains "*" n = false) ["foo"; "nosuch"])
    by (repeat constructor).
  split; [discriminate|]. split; [exact Hall|].
  destruct (version_of_names (Demo.boot [("foo", "1")]) ["foo"; "nosuch"] false)
    as (m & Hm & _ & Hmany); [discriminate|exact Hall|].
  exists m. split; [|split].
  - apply Hmany. exists "foo", "nosuch".
    split; [apply list_elem_of_here|].
    split; [apply list_elem_of_further, list_elem_of_here|discriminate].
  - rewrite Hm. rewrite bool_decide_eq_true_2 by apply list_elem_of_here.
    vm_compute. reflexivity.
  - rewrite Hm.
    rewrite bool_decide_eq_true_2 by apply list_elem_of_further, list_elem_of_here.
    vm_compute. reflexivity.
Defined.

(** The removed snaps of a machine with a snap installed and cached. *)
Lemma untracked_categories_are_empty_witness :
  removed_kw (mkKwargs true false) || purge_desired_kw (mkKwargs true false) = true
  /\ fst (version ["foo"] false (mkKwargs true false) (Demo.warm [("foo", "1")]))
     = Return (Single (VStr "")).
Proof.
  split; [reflexivity|].
  destruct (untracked_categories_are_empty (Demo.warm [("foo", "1")]) false
              (mkKwargs true false) "foo" eq_refl) as [_ Hv].
  apply Hv. reflexivity.
Defined.

(** Two reads on a machine at start-up. *)
Lemma second_read_is_served_from_cache_witness :
  wf (Demo.boot [("foo", "1")])
  /\ exists r1 w1 r2 w2,
       list_pkgs false no_kwargs (Demo.boot [("foo", "1")]) = (Return r1, w1)
       /\ list_pkgs true no_kwargs w1 = (Return r2, w2)
       /\ trace w2 = trace w1.
Proof.
  assert (Hwf : wf (Demo.boot [("foo", "1")])) by (intros c Hc; discriminate).
  split; [exact Hwf|].
  destruct (second_read_is_served_from_cache (Demo.boot [("foo", "1")]) false true Hwf)
    as (r1 & w1 & r2 & w2 & H1 & H2 & _ & _ & Htr & _).
  exists r1, w1, r2, w2. split; [exact H1|]. split; [exact H2|exact Htr].
Defined.

(** The cache after an installation that fails half-way. *)
Lemma cache_is_fresh_after_operation_witness :
  accepted Present "half" "jailmode"
  /\ cached (snd (operate Present "half" "jailmode" (Demo.boot [])))
     = Some {["half" := VList ["0.5"]]}.
Proof.
  assert (Hacc : accepted Present "half" "jailmode").
  { split; [reflexivity|]. unfold confinements. set_solver. }
  split; [exact Hacc|].
  pose proof (cache_is_fresh_after_operation Present (Demo.boot []) "half" "jailmode"
                [] false Hacc) as Hthm.
  cbv zeta in Hthm. destruct Hthm as [Hc _].
  rewrite Hc. vm_compute. reflexivity.
Defined.

(** The report of a removal that succeeds. *)
Lemma converged_report_witness :
  version ["foo"] false no_kwargs (Demo.boot [("foo", "1")])
  = (Return (Single (VStr "1")), after_list_pkgs true (Demo.boot [("foo", "1")]))
  /\ truthy (Single (VStr "1")) = true
  /\ ensure Absent "foo" "jailmode" (Demo.boot [("foo", "1")])
     = (Return (mkReport "foo" true
                  {["installed" := CV_set {["foo" := mkDiff (VStr "1") (VStr "")]}]} ""),
        snd (operate Absent "foo" "jailmode"
               (after_list_pkgs true (Demo.boot [("foo", "1")])))).
Proof.
  assert (Hv : version ["foo"] false no_kwargs (Demo.boot [("foo", "1")])
               = (Return (Single (VStr "1")),
                  after_list_pkgs true (Demo.boot [("foo", "1")])))
    by (vm_compute; reflexivity).
  split; [exact Hv|]. split; [reflexivity|].
  apply (converged_report Absent (Demo.boot [("foo", "1")]) "foo" "jailmode"
           (Single (VStr "1")) (after_list_pkgs true (Demo.boot [("foo", "1")]))).
  - exact Hv.
  - reflexivity.
  - vm_compute; reflexivity.
Defined.

(** A snap that is installed, asked for with a confinement that does not
    exist. *)
Lemma already_satisfied_witness :
  Str.contains "*" "foo" = false
  /\ fst (ensure Present "foo" "bogus" (Demo.boot [("foo", "1")]))
     = Return (satisfied "foo").
Proof.
  split; [reflexivity|].
  destruct (already_satisfied Present (Demo.boot [("foo", "1")]) "foo" "bogus")
    as [Hens _]; [reflexivity|vm_compute; discriminate|].
  by rewrite Hens.
Defined.

(** A snap that is not installed, asked for with a confinement that does
    not exist. *)
Lemma invalid_arguments_are_reported_witness :
  ~ accepted Present "foo" "bogus"
  /\ exists msg,
       fst (ensure Present "foo" "bogus" (Demo.boot []))
       = Return (mkReport "foo" false ∅
                   ("An error was encountered while installing package(s): " +:+ msg)).
Proof.
  assert (Hrej : ~ accepted Present "foo" "bogus").
  { intros [_ Hc]. unfold confinements in Hc.
    repeat (apply elem_of_cons in Hc as [Hc|Hc]; [discriminate|]).
    by apply elem_of_nil in Hc. }
  split; [exact Hrej|].
  destruct (invalid_arguments_are_reported Present (Demo.boot []) "foo" "bogus")
    as (msg & _ & Hens & _); [reflexivity|vm_compute; reflexivity|exact Hrej|].
  exists msg. by rewrite Hens.
Defined.

(** A state asked for a name with a wildcard. *)
Lemma state_of_wildcard_name_raises_witness :
  Str.contains "*" "foo*" = true
  /\ fst (ensure Present "foo*" "jailmode" (Demo.boot [("foo", "1")]))
     = Raise (NameError "fnmatch").
Proof.
  split; [reflexivity|].
  destruct (state_of_wildcard_name_raises Present (Demo.boot [("foo", "1")]) "foo*"
              "jailmode" eq_refl) as [Hens _].
  by rewrite Hens.
Defined.
